(** * image-metadata-extractor: the report formatter and the two extractors

    A shallow embedding of [image_metadata_extractor/metadata_extractor.py].

    - Python [str] values are Rocq [string]s (sequences of bytes, the UTF-8
      encoding of the text).  The character classes used by [strip], [split],
      [title], [lower] and the regular expressions are the ASCII ones; bytes
      above 127 (the emoji of the section titles) belong to no class.
    - Python [float] is the kernel's binary64 [float]; [float(s)], [repr],
      [int(x)] and the [.2f] format are computed exactly from the value
      [m * 2^e] of a float.
    - [Dict[str, _]] is [gmap string _]; [Optional[_]] is [option _].
    - A Python exception is a value of [exn]; a call that may raise returns a
      [result]. *)

From Stdlib Require Import ZArith QArith Ascii Floats Lia Bool.
From Stdlib Require Import DecimalString.
From Stdlib Require String.
From stdpp Require Import gmap strings list.

Local Open Scope Z_scope.

(** ** Exceptions *)

Inductive exn : Type :=
| ValueError
| TypeError
| ZeroDivisionError
| OverflowError
| AttributeError
| ParseError
| UnicodeDecodeError
| OSError.

Inductive result (A : Type) : Type :=
| Ok (a : A)
| Raise (e : exn).
Arguments Ok {A} a.
Arguments Raise {A} e.

(** Sequencing: the first exception raised ends the computation.
    [x ← r; k] is stdpp's notation for it. *)
Global Instance result_ret : MRet result := fun A a => Ok a.
Global Instance result_bind : MBind result := fun A B f r =>
  match r with
  | Ok a => f a
  | Raise e => Raise e
  end.

Definition raises {A : Type} (r : result A) : Prop :=
  match r with Ok _ => False | Raise _ => True end.

(** ** Characters *)

Definition code (c : ascii) : N := N_of_ascii c.

Definition in_range (lo hi : N) (c : ascii) : bool :=
  ((lo <=? code c) && (code c <=? hi))%N.

(** [str.isspace] on one ASCII character: TAB, LF, VT, FF, CR, the four
    separators FS, GS, RS, US, and the space. *)
Definition is_space (c : ascii) : bool :=
  in_range 9 13 c || in_range 28 32 c.

Definition is_upper (c : ascii) : bool := in_range 65 90 c.
Definition is_lower (c : ascii) : bool := in_range 97 122 c.
Definition is_digit (c : ascii) : bool := in_range 48 57 c.
Definition is_alpha (c : ascii) : bool := is_upper c || is_lower c.

(** The class [\w] of a regular expression. *)
Definition is_word (c : ascii) : bool :=
  is_alpha c || is_digit c || (code c =? 95)%N.

Definition to_lower (c : ascii) : ascii :=
  if is_upper c then ascii_of_N (code c + 32) else c.
Definition to_upper (c : ascii) : ascii :=
  if is_lower c then ascii_of_N (code c - 32) else c.

(** ** Strings *)

Fixpoint str_map (f : ascii -> ascii) (s : string) : string :=
  match s with
  | EmptyString => EmptyString
  | String c t => String (f c) (str_map f t)
  end.

(** [s.lower()] *)
Definition str_lower : string -> string := str_map to_lower.

Fixpoint str_lstrip (s : string) : string :=
  match s with
  | EmptyString => EmptyString
  | String c t => if is_space c then str_lstrip t else s
  end.

Definition str_rstrip (s : string) : string :=
  String.rev (str_lstrip (String.rev s)).

(** [s.strip()] *)
Definition str_strip (s : string) : string := str_rstrip (str_lstrip s).

(** [s.split()]: the maximal runs of characters that are not whitespace.
    [cur] is the run being read, reversed. *)
Fixpoint split_go (cur : string) (s : string) : list string :=
  match s with
  | EmptyString =>
      match cur with EmptyString => [] | _ => [String.rev cur] end
  | String c t =>
      if is_space c
      then match cur with
           | EmptyString => split_go EmptyString t
           | _ => String.rev cur :: split_go EmptyString t
           end
      else split_go (String c cur) t
  end.

Definition str_split (s : string) : list string := split_go EmptyString s.

(** [s.startswith(p)] *)
Definition startswith (p s : string) : bool := String.prefix p s.

Fixpoint str_drop (n : nat) (s : string) : string :=
  match n, s with
  | O, _ => s
  | S k, EmptyString => EmptyString
  | S k, String _ t => str_drop k t
  end.

Fixpoint str_take (n : nat) (s : string) : string :=
  match n, s with
  | O, _ => EmptyString
  | S k, EmptyString => EmptyString
  | S k, String c t => String c (str_take k t)
  end.

(** [s.replace(old, new)] for a non-empty [old]: the occurrences of [old]
    are found from the left and do not overlap.  [skip] counts the
    characters of an occurrence still to be passed over. *)
Fixpoint replace_go (old new : string) (skip : nat) (s : string) : string :=
  match s with
  | EmptyString => EmptyString
  | String c t =>
      match skip with
      | S k => replace_go old new k t
      | O =>
          if startswith old s
          then new +:+ replace_go old new (String.length old - 1) t
          else String c (replace_go old new 0 t)
      end
  end.

(** With an empty [old], Python puts [new] before every character and at
    the end. *)
Fixpoint intersperse (new : string) (s : string) : string :=
  match s with
  | EmptyString => new
  | String c t => new +:+ String c (intersperse new t)
  end.

Definition str_replace (old new s : string) : string :=
  match old with
  | EmptyString => intersperse new s
  | _ => replace_go old new 0 s
  end.

(** [s.title()]: a letter that follows a letter is lowered, any other
    letter is raised.  [prev] says whether the previous character was a
    letter. *)
Fixpoint title_go (prev : bool) (s : string) : string :=
  match s with
  | EmptyString => EmptyString
  | String c t =>
      String (if is_alpha c then (if prev then to_lower c else to_upper c) else c)
             (title_go (is_alpha c) t)
  end.

Definition str_title (s : string) : string := title_go false s.

(** [sub in s] *)
Fixpoint str_contains (sub s : string) : bool :=
  startswith sub s ||
  match s with
  | EmptyString => false
  | String _ t => str_contains sub t
  end.

(** [s.find(sub)]: the first index at which [sub] occurs, or [-1]. *)
Fixpoint find_go (sub s : string) (i : Z) : Z :=
  if startswith sub s then i
  else match s with
       | EmptyString => -1
       | String _ t => find_go sub t (i + 1)
       end.

Definition str_find (sub s : string) : Z := find_go sub s 0.

(** [s[i:j]] with Python's treatment of negative and out-of-range bounds. *)
Definition slice_bound (len i : Z) : Z :=
  if i <? 0 then Z.max 0 (i + len) else Z.min i len.

Definition str_slice (s : string) (i j : Z) : string :=
  let len := Z.of_nat (String.length s) in
  let a := slice_bound len i in
  let b := slice_bound len j in
  str_take (Z.to_nat (b - a)) (str_drop (Z.to_nat a) s).

(** [str(n)] for an [int] *)
Definition str_of_Z (n : Z) : string := NilZero.string_of_int (Z.to_int n).

(** ** Floats *)

(** The integer nearest to [n / d] for [d > 0]; a tie goes to the even
    one. *)
Definition round_half_even (n d : Z) : Z :=
  let q := n / d in
  match 2 * (n mod d) ?= d with
  | Lt => q
  | Gt => q + 1
  | Eq => if Z.even q then q else q + 1
  end.

(** [n / d * 2^(-e)] as a fraction. *)
Definition scale2 (n d e : Z) : Z * Z :=
  if 0 <=? e then (n, d * 2 ^ e) else (n * 2 ^ (- e), d).

(** The float nearest to [n / d] for [n, d > 0] (ties to even): the
    exponent [e] puts the quotient in [2^52, 2^53), or is the least
    exponent [-1074] for a subnormal result; a result of [2^1024] or
    more is [inf]. *)
Definition float_of_ratio (n d : Z) : float :=
  let e0 := Z.log2 n - Z.log2 d - 52 in
  let q := let '(a, b) := scale2 n d e0 in a / b in
  let e1 := if q <? 2 ^ 52 then e0 - 1
            else if 2 ^ 53 <=? q then e0 + 1 else e0 in
  let e := Z.max e1 (-1074) in
  let '(a, b) := scale2 n d e in
  Z.ldexp (of_uint63 (Uint63.of_Z (round_half_even a b))) e.

(** The float nearest to [(-1)^neg * n / d] for [n >= 0], [d > 0]. *)
Definition float_of_fraction (neg : bool) (n d : Z) : float :=
  let x := if n =? 0 then 0%float else float_of_ratio n d in
  if neg then (- x)%float else x.

(** [float(n)] and the true division [a / b] of two [int]s, both
    correctly rounded. *)
Definition float_of_Z (n : Z) : float :=
  float_of_fraction (n <? 0) (Z.abs n) 1.

Definition Z_truediv (a b : Z) : float :=
  float_of_fraction (negb (Bool.eqb (a <? 0) (b <? 0))) (Z.abs a) (Z.abs b).

(** The value of a finite float as a fraction [n / d]. *)
Definition ratio_of_finite (m : positive) (e : Z) : Z * Z :=
  if 0 <=? e then (Z.pos m * 2 ^ e, 1) else (Z.pos m, 2 ^ (- e)).

(** [int(x)]: the integer part of [x]. *)
Definition int_of_float (x : float) : result Z :=
  match Prim2SF x with
  | S754_zero _ => Ok 0
  | S754_infinity _ => Raise OverflowError
  | S754_nan => Raise ValueError
  | S754_finite s m e =>
      let '(n, d) := ratio_of_finite m e in
      Ok (if s then - (n / d) else n / d)
  end.

(** *** [float(s)] *)

(** The whitespace that [float] strips from an ASCII string (C's
    [isspace]). *)
Definition is_c_space (c : ascii) : bool :=
  in_range 9 13 c || (code c =? 32)%N.

Fixpoint lstrip_c (s : string) : string :=
  match s with
  | EmptyString => EmptyString
  | String c t => if is_c_space c then lstrip_c t else s
  end.

Definition strip_c (s : string) : string :=
  String.rev (lstrip_c (String.rev (lstrip_c s))).

(** Underscores may only stand between two digits; they are removed.
    [prev] is the previous character. *)
Fixpoint drop_underscores (prev : option ascii) (s : string) : option string :=
  let prev_digit := from_option is_digit false prev in
  let prev_under := from_option (fun c => (code c =? 95)%N) false prev in
  match s with
  | EmptyString => if prev_under then None else Some EmptyString
  | String c t =>
      if (code c =? 95)%N
      then if prev_digit then drop_underscores (Some c) t else None
      else if prev_under && negb (is_digit c) then None
           else String c <$> drop_underscores (Some c) t
  end.

(** The digits at the head of [s]: their value appended to [acc], how many
    they are, and what follows them. *)
Fixpoint read_digits (acc : Z) (s : string) : Z * nat * string :=
  match s with
  | String c t =>
      if is_digit c
      then let '(v, n, r) := read_digits (10 * acc + (Z.of_N (code c) - 48)) t in
           (v, S n, r)
      else (acc, O, s)
  | EmptyString => (acc, O, s)
  end.

Definition read_sign (s : string) : bool * string :=
  match s with
  | String "-" t => (true, t)
  | String "+" t => (false, t)
  | _ => (false, s)
  end.

(** The exponent part: nothing, or [e] or [E], an optional sign and at
    least one digit, up to the end of the string. *)
Definition read_exponent (s : string) : option Z :=
  match s with
  | EmptyString => Some 0
  | String c t =>
      if (code c =? 101)%N || (code c =? 69)%N
      then let '(neg, t') := read_sign t in
           match read_digits 0 t' with
           | (v, S _, EmptyString) => Some (if neg then - v else v)
           | _ => None
           end
      else None
  end.

(** A decimal numeral [digits [. digits] [exponent]] with at least one
    digit before the exponent, as [(D, E)] for the value [D * 10^E]. *)
Definition read_decimal (s : string) : option (Z * Z) :=
  let '(ip, n1, r1) := read_digits 0 s in
  let '(m, n2, r2) :=
    match r1 with
    | String "." t => read_digits ip t
    | _ => (ip, O, r1)
    end in
  match (n1 + n2)%nat with
  | O => None
  | S _ => ex ← read_exponent r2; Some (m, ex - Z.of_nat n2)
  end.

(** [float(s)]; [None] stands for the [ValueError] Python raises. *)
Definition float_of_string (s : string) : option float :=
  s1 ← drop_underscores None (strip_c s);
  let '(neg, body) := read_sign s1 in
  let low := str_lower body in
  if bool_decide (low = "inf") || bool_decide (low = "infinity")
  then Some (if neg then neg_infinity else infinity)
  else if bool_decide (low = "nan") then Some nan
  else
    '(m, ex) ← read_decimal body;
    Some (if 0 <=? ex
          then float_of_fraction neg (m * 10 ^ ex) 1
          else float_of_fraction neg m (10 ^ (- ex))).

(** *** [repr(x)] and the [.2f] format *)

(** [n] zeros *)
Fixpoint zeros (n : nat) : string :=
  match n with O => EmptyString | S k => String "0" (zeros k) end.

(** The decimal digits of [n >= 0], padded with zeros on the left to at
    least [w] characters. *)
Definition pad_digits (w : nat) (n : Z) : string :=
  let ds := str_of_Z n in
  zeros (w - String.length ds) +:+ ds.

(** [n / d * 10^(-k)] as a fraction. *)
Definition scale10 (n d k : Z) : Z * Z :=
  if 0 <=? k then (n, d * 10 ^ k) else (n * 10 ^ (- k), d).

(** The largest [k] with [10^k <= n / d], for [n, d > 0]: the estimate
    from the binary logarithms is off by two at most. *)
Definition floor_log10 (n d : Z) : Z :=
  let est := (Z.log2 n - Z.log2 d) * 1233 / 4096 in
  let fits k := let '(a, b) := scale10 n d k in b <=? a in
  from_option id (est - 3)
    (List.find fits [est + 2; est + 1; est; est - 1; est - 2]).

(** [D * 10^k] as a float *)
Definition float_of_decimal (D k : Z) : float :=
  if 0 <=? k then float_of_fraction false (D * 10 ^ k) 1
  else float_of_fraction false D (10 ^ (- k)).

(** The shortest decimal [D * 10^k] that [float] reads back as the
    positive finite float [x = n / d]; of the two [p]-digit neighbours of
    [x] one that reads back as [x] is taken, the nearer one when both do.
    Seventeen digits always suffice. *)
Definition shortest_at (x : float) (n d : Z) (p : Z) : option (Z * Z) :=
  let k := floor_log10 n d - p + 1 in
  let '(a, b) := scale10 n d k in
  let lo := a / b in
  let hi := lo + 1 in
  let ok D := PrimFloat.eqb (float_of_decimal D k) x in
  let lo_near := 2 * (a mod b) <=? b in
  match ok lo, ok hi with
  | true, true => Some (if lo_near then lo else hi, k)
  | true, false => Some (lo, k)
  | false, true => Some (hi, k)
  | false, false => None
  end.

Fixpoint shortest_from (x : float) (n d : Z) (p : Z) (fuel : nat) : Z * Z :=
  match fuel with
  | O => let k := floor_log10 n d - 16 in
         let '(a, b) := scale10 n d k in (round_half_even a b, k)
  | S f =>
      match shortest_at x n d p with
      | Some r => r
      | None => shortest_from x n d (p + 1) f
      end
  end.

(** Trailing zeros of the digits go into the exponent. *)
Fixpoint trim_zeros (fuel : nat) (D k : Z) : Z * Z :=
  match fuel with
  | O => (D, k)
  | S f => if (D mod 10 =? 0) && negb (D =? 0)
           then trim_zeros f (D / 10) (k + 1) else (D, k)
  end.

(** The digits [ds] with the decimal point after the first [decpt] of
    them, the way [repr] lays them out: an exponent when [decpt] is
    outside [-3 .. 16], else plain notation with at least one digit on
    each side of the point. *)
Definition repr_layout (ds : string) (decpt : Z) : string :=
  let nd := Z.of_nat (String.length ds) in
  if (decpt <=? -4) || (16 <? decpt) then
    let ex := decpt - 1 in
    let mant := match ds with
                | String c EmptyString => ds
                | String c t => String c (String "." t)
                | EmptyString => ds
                end in
    mant +:+ "e" +:+ (if ex <? 0 then "-" else "+") +:+ pad_digits 2 (Z.abs ex)
  else if decpt <=? 0 then
    "0." +:+ zeros (Z.to_nat (- decpt)) +:+ ds
  else if nd <=? decpt then
    ds +:+ zeros (Z.to_nat (decpt - nd)) +:+ ".0"
  else
    str_take (Z.to_nat decpt) ds +:+ "." +:+ str_drop (Z.to_nat decpt) ds.

(** [repr(x)], which is also [str(x)] *)
Definition float_repr (x : float) : string :=
  match Prim2SF x with
  | S754_nan => "nan"
  | S754_infinity s => if s then "-inf" else "inf"
  | S754_zero s => if s then "-0.0" else "0.0"
  | S754_finite s m e =>
      let '(n, d) := ratio_of_finite m e in
      let '(D0, k0) := shortest_from (abs x) n d 1 17 in
      let '(D, k) := trim_zeros 17 D0 k0 in
      let ds := str_of_Z D in
      (if s then "-" else "") +:+
      repr_layout ds (Z.of_nat (String.length ds) + k)
  end.

(** [f"{x:.2f}"]: [x] rounded to hundredths (ties to even, on the exact
    value of the float). *)
Definition format_2f (x : float) : string :=
  match Prim2SF x with
  | S754_nan => "nan"
  | S754_infinity s => if s then "-inf" else "inf"
  | S754_zero s => if s then "-0.00" else "0.00"
  | S754_finite s m e =>
      let '(n, d) := ratio_of_finite m e in
      let h := round_half_even (100 * n) d in
      (if s then "-" else "") +:+
      str_of_Z (h / 100) +:+ "." +:+ pad_digits 2 (h mod 100)
  end.

(** ** Regular expressions

    The fragment of Python's [re] that the program uses, with its
    backtracking semantics: a greedy [+] tries one more round before it
    lets the rest of the pattern run, and the first alternative that
    lets the whole pattern match wins. *)

Inductive regex : Type :=
| Class (p : ascii -> bool)         (* one character of a class; [.] *)
| Seq (r1 r2 : regex)               (* [r1 r2] *)
| Plus (r : regex)                  (* [r+], greedy *)
| Group (i : nat) (r : regex)       (* the [i]-th capturing group [(r)] *)
| Backref (i : nat)                 (* [\i] *)
| WordBoundary.                     (* [\b] *)

(** A position in the subject: the characters already passed ([before],
    the last one first), those to come ([rest]) and the text of the
    groups matched so far. *)
Record mstate : Type := MState {
  before : string;
  rest : string;
  caps : gmap nat string;
}.

Definition head_is (p : ascii -> bool) (s : string) : bool :=
  match s with
  | String c _ => p c
  | EmptyString => false
  end.

(** [\b]: exactly one of the two neighbours is a word character. *)
Definition at_boundary (st : mstate) : bool :=
  xorb (head_is is_word (before st)) (head_is is_word (rest st)).

(** The text passed between the positions [st] and [st']. *)
Definition passed (st st' : mstate) : string :=
  str_take (String.length (rest st) - String.length (rest st')) (rest st).

Definition advance (n : nat) (st : mstate) : mstate :=
  MState (String.rev_app (str_take n (rest st)) (before st))
         (str_drop n (rest st)) (caps st).

Definition orelse {A : Type} (a b : option A) : option A :=
  match a with Some _ => a | None => b end.

(** The rounds of a greedy [+] whose body is matched by [m]: one round,
    then as many more as the rest of the pattern [k] allows, the most
    first.  A round passes at least one character, so [fuel], the number
    of characters to come, bounds the rounds after the first. *)
Fixpoint rounds (m : mstate -> (mstate -> option mstate) -> option mstate)
    (k : mstate -> option mstate) (fuel : nat) (st0 : mstate) : option mstate :=
  m st0 (fun st1 =>
    match fuel with
    | S f => orelse (rounds m k f st1) (k st1)
    | O => k st1
    end).

(** [rmatch r st k]: match [r] at [st], then run the rest of the pattern
    [k] at the position reached; [None] when no way of matching [r] lets
    [k] succeed. *)
Fixpoint rmatch (r : regex) (st : mstate) (k : mstate -> option mstate)
  : option mstate :=
  match r with
  | Class p =>
      match rest st with
      | String c t =>
          if p c then k (MState (String c (before st)) t (caps st)) else None
      | EmptyString => None
      end
  | Seq r1 r2 => rmatch r1 st (fun st1 => rmatch r2 st1 k)
  | Plus r1 => rounds (rmatch r1) k (String.length (rest st)) st
  | Group i r1 =>
      rmatch r1 st (fun st1 =>
        k (MState (before st1) (rest st1) (<[i := passed st st1]> (caps st1))))
  | Backref i =>
      match caps st !! i with
      | Some w =>
          if startswith w (rest st) then k (advance (String.length w) st)
          else None
      | None => None
      end
  | WordBoundary => if at_boundary st then k st else None
  end.

(** The match of [r] that starts at [st], if there is one. *)
Definition match_at (r : regex) (st : mstate) : option mstate :=
  rmatch r st Some.

(** The text of group [i] in a replacement template. *)
Definition cap (i : nat) (st : mstate) : string :=
  default EmptyString (caps st !! i).

(** [re.sub(r, repl, s)]: from the left, every match of [r] that does
    not overlap an earlier one is replaced.  [skip] counts the characters
    of the current match still to be passed over; [bef] is the subject
    up to the current position, reversed. *)
Fixpoint sub_go (r : regex) (repl : mstate -> string)
    (skip : nat) (bef : string) (s : string) : string :=
  match s with
  | EmptyString =>
      match match_at r (MState bef s ∅) with
      | Some st => repl st
      | None => EmptyString
      end
  | String c t =>
      match skip with
      | S n => sub_go r repl n (String c bef) t
      | O =>
          match match_at r (MState bef s ∅) with
          | Some st =>
              match (String.length s - String.length (rest st))%nat with
              | S n => repl st +:+ sub_go r repl n (String c bef) t
              | O => repl st +:+ String c (sub_go r repl 0 (String c bef) t)
              end
          | None => String c (sub_go r repl 0 (String c bef) t)
          end
      end
  end.

Definition re_sub (r : regex) (repl : mstate -> string) (s : string) : string :=
  sub_go r repl 0 EmptyString s.

(** [.]: any character but the newline *)
Definition dot (c : ascii) : bool := negb (code c =? 10)%N.

(** ["(.)([A-Z][a-z]+)"] *)
Definition re_word_start : regex :=
  Seq (Group 1 (Class dot))
      (Group 2 (Seq (Class is_upper) (Plus (Class is_lower)))).

(** ["([a-z0-9])([A-Z])"] *)
Definition re_lower_upper : regex :=
  Seq (Group 1 (Class (fun c => is_lower c || is_digit c)))
      (Group 2 (Class is_upper)).

(** [r"(\s+\1)"], the repeated part of the next pattern *)
Definition gap_word : regex :=
  Group 2 (Seq (Plus (Class is_space)) (Backref 1)).

(** [r"\b(\w+)(\s+\1)+\b"] *)
Definition re_duplicates : regex :=
  Seq WordBoundary
   (Seq (Group 1 (Plus (Class is_word)))
    (Seq (Plus gap_word) WordBoundary)).

(** The template [r"\1 \2"] *)
Definition repl_1_space_2 (st : mstate) : string :=
  cap 1 st +:+ " " +:+ cap 2 st.

(** [camel_to_standard] *)
Definition camel_to_standard (name : string) : string :=
  let name := re_sub re_word_start repl_1_space_2 name in
  str_title (re_sub re_lower_upper repl_1_space_2 name).

(** ** Metadata records *)

(** The value of an EXIF tag: a string, an integer or a float. *)
Inductive value : Type :=
| VStr (s : string)
| VInt (n : Z)
| VFloat (x : float).

(** [str(v)], which is how an f-string renders [v] *)
Definition py_str (v : value) : string :=
  match v with
  | VStr s => s
  | VInt n => str_of_Z n
  | VFloat x => float_repr x
  end.

(** [v < 1] *)
Definition lt_one (v : value) : result bool :=
  match v with
  | VStr _ => Raise TypeError
  | VInt n => Ok (n <? 1)
  | VFloat x => Ok (PrimFloat.ltb x 1)
  end.

(** [1 / v] *)
Definition reciprocal (v : value) : result float :=
  match v with
  | VStr _ => Raise TypeError
  | VInt n => if n =? 0 then Raise ZeroDivisionError else Ok (Z_truediv 1 n)
  | VFloat x =>
      if PrimFloat.eqb x 0 then Raise ZeroDivisionError else Ok (1 / x)%float
  end.

(** [v == 0] *)
Definition eq_zero (v : value) : bool :=
  match v with
  | VStr _ => false
  | VInt n => n =? 0
  | VFloat x => PrimFloat.eqb x 0
  end.

(** The [int] key that [v] equals (and hashes as), if any: the key under
    which a dict with [int] keys finds [v]. *)
Definition int_key (v : value) : option Z :=
  match v with
  | VStr _ => None
  | VInt n => Some n
  | VFloat x =>
      match int_of_float x with
      | Ok n => if PrimFloat.eqb (float_of_Z n) x then Some n else None
      | Raise _ => None
      end
  end.

Abbreviation XmpRecord := (gmap string string).
Abbreviation ExifRecord := (gmap string value).

(** The truth value of an [Optional[Dict]]: [None] and the empty dict
    are false. *)
Definition truthy {V : Type} (d : option (gmap string V)) : bool :=
  match d with
  | Some m => negb (bool_decide (m = ∅))
  | None => false
  end.

(** [d or {}] *)
Definition or_empty {V : Type} (d : option (gmap string V)) : gmap string V :=
  if truthy d then default ∅ d else ∅.

(** The float that the literal [0.1] denotes *)
Definition one_tenth : float := 0x1.999999999999ap-4%float.

(** ["\n"] *)
Definition nl : string := String "010" EmptyString.

(** [exif_data.get(key, '')], rendered *)
Definition get_str (exif_data : ExifRecord) (key : string) : string :=
  py_str (default (VStr "") (exif_data !! key)).

(** ** The section formatters *)

Definition format_camera_settings
    (xmp_data : XmpRecord) (exif_data : ExifRecord) : string :=
  let camera := get_str exif_data "Make" +:+ " " +:+ get_str exif_data "Model" in
  let camera := re_sub re_duplicates (cap 1) camera in
  let lens := get_str exif_data "LensModel" in
  str_strip ("Camera: " +:+ str_strip camera +:+ nl +:+ "Lens: " +:+ lens).

(** The shutter-speed line for the exposure time [shutter_speed]. *)
Definition shutter_line (shutter_speed : value) : result string :=
  fast ← lt_one shutter_speed;
  if fast : bool then
    r ← reciprocal shutter_speed;
    n ← int_of_float r;
    Ok ("Shutter Speed: 1/" +:+ str_of_Z n +:+ " sec" +:+ nl)
  else Ok ("Shutter Speed: " +:+ py_str shutter_speed +:+ " sec" +:+ nl).

(** The text a tag adds to the output: nothing when the tag is absent. *)
Definition when_present {V : Type} (d : gmap string V) (key : string)
    (line : V -> result string) : result string :=
  match d !! key with
  | Some v => line v
  | None => Ok EmptyString
  end.

Definition format_settings
    (xmp_data : XmpRecord) (exif_data : ExifRecord) : result string :=
  a ← when_present exif_data "FNumber"
         (fun v => Ok ("Aperture: f/" +:+ py_str v +:+ nl));
  s ← when_present exif_data "ExposureTime" shutter_line;
  i ← when_present exif_data "ISOSpeedRatings"
         (fun v => Ok ("ISO: " +:+ py_str v +:+ nl));
  f ← when_present exif_data "FocalLength"
         (fun v => Ok ("Focal Length: " +:+ py_str v +:+ " mm" +:+ nl));
  Ok (str_strip (a +:+ s +:+ i +:+ f)).

Section Formatter.

(** The two tables of [image_metadata_extractor.constants] that the
    formatter reads; the module is not part of the sources at hand, so
    they are parameters. *)
Variable EXPOSURE_PROGRAMS : gmap Z string.
Variable POST_PROCESSING_KEYS : list string.

Definition format_tech_details
    (xmp_data : XmpRecord) (exif_data : ExifRecord) : string :=
  let p := match exif_data !! "ExposureProgram" with
           | Some v =>
               "Shot in " +:+
               default "Unknown" (k ← int_key v; EXPOSURE_PROGRAMS !! k) +:+
               " mode" +:+ nl
           | None => EmptyString
           end in
  let w := match exif_data !! "WhiteBalance" with
           | Some v =>
               "White Balance: " +:+
               (if eq_zero v then "Auto" else "Manual") +:+ nl
           | None => EmptyString
           end in
  str_strip (p +:+ w).

(** The percentage cropped at the edge [key] for the fraction [value]. *)
Definition crop_percentage (key : string) (value : float) : float :=
  if bool_decide (key ∈ ["CropLeft"; "CropTop"])
  then (value * 100)%float
  else ((1 - value) * 100)%float.

(** What one crop key adds to the output. *)
Definition crop_line (xmp_data : XmpRecord) (key : string) : result string :=
  when_present xmp_data key (fun s =>
    match float_of_string s with
    | None => Raise ValueError
    | Some value =>
        let percentage := crop_percentage key value in
        if PrimFloat.ltb one_tenth (abs percentage)
        then Ok (str_drop 4 key +:+ ": " +:+ format_2f percentage
                 +:+ "% cropped" +:+ nl)
        else Ok EmptyString
    end).

(** A loop [for key in keys: output += line(key)] *)
Fixpoint concat_lines (line : string -> result string) (keys : list string)
  : result string :=
  match keys with
  | [] => Ok EmptyString
  | key :: keys' =>
      l ← line key;
      ls ← concat_lines line keys';
      Ok (l +:+ ls)
  end.

Definition crop_keys : list string :=
  ["CropLeft"; "CropRight"; "CropTop"; "CropBottom"].

Definition format_crop_info
    (xmp_data : XmpRecord) (exif_data : ExifRecord) : result string :=
  output ← concat_lines (crop_line xmp_data) crop_keys;
  Ok (str_strip output).

(** [try: body except ValueError: handler] *)
Definition except_ValueError {A : Type} (body handler : result A) : result A :=
  match body with
  | Raise ValueError => handler
  | _ => body
  end.

(** ["{display_key}: {value}\n"] *)
Definition display_line (key value : string) : string :=
  camel_to_standard (str_replace "2012" "" key) +:+ ": " +:+ value +:+ nl.

(** What one allow-listed key with the value [value] adds to the
    output: the body of the loop. *)
Definition post_processing_line (key value : string) : result string :=
  except_ValueError
    (match float_of_string value with
     | None => Raise ValueError
     | Some float_value =>
         skip ← (if bool_decide (key = "PerspectiveScale")
                 then n ← int_of_float float_value; Ok (n =? 100)
                 else Ok false);
         if skip : bool then Ok EmptyString
         else if negb (PrimFloat.eqb float_value 0)
              then Ok (display_line key value)
              else Ok EmptyString
     end)
    (if bool_decide (str_lower value ∈ ["0"; "false"; "none"; ""])
     then Ok EmptyString
     else Ok (display_line key value)).

Definition format_post_processing
    (xmp_data : XmpRecord) (exif_data : ExifRecord) : result string :=
  let tool := match xmp_data !! "CreatorTool" with
              | Some t => "Edited in " +:+ t +:+ nl
              | None => EmptyString
              end in
  ls ← concat_lines
         (fun key => when_present xmp_data key (post_processing_line key))
         POST_PROCESSING_KEYS;
  Ok (str_strip (tool +:+ ls)).

Definition format_capture_date
    (xmp_data : XmpRecord) (exif_data : ExifRecord) : result string :=
  when_present exif_data "DateTimeOriginal" (fun v =>
    match v with
    | VStr s =>
        match str_split s with
        | [date; time] =>
            Ok ("Captured on " +:+ str_replace ":" "-" date +:+ " at " +:+ time)
        | _ => Raise ValueError
        end
    | _ => Raise AttributeError
    end).

(** ** The report *)

Definition sentinel : string := "No metadata present".

(** The sections, in the order of the [sections] dict. *)
Definition sections
  : list (string * (XmpRecord -> ExifRecord -> result string)) :=
  [ ("📸 Camera Settings Breakdown 📸",
       fun x e => Ok (format_camera_settings x e));
    ("📊 Settings", format_settings);
    ("🔍 Tech Details", fun x e => Ok (format_tech_details x e));
    ("✂️ Crop Info", format_crop_info);
    ("✨ Post-Processing", format_post_processing);
    ("📅 Capture Date", format_capture_date) ].

(** [output] with a section put before it: a section whose content is
    empty adds nothing. *)
Definition add_section (section_title section_content output : string) : string :=
  match section_content with
  | EmptyString => output
  | _ => section_title +:+ nl +:+ section_content +:+ nl +:+ output
  end.

(** The loop over the sections. *)
Fixpoint render_sections
    (secs : list (string * (XmpRecord -> ExifRecord -> result string)))
    (xmp_data : XmpRecord) (exif_data : ExifRecord) : result string :=
  match secs with
  | [] => Ok EmptyString
  | (section_title, format_function) :: secs' =>
      section_content ← format_function xmp_data exif_data;
      output ← render_sections secs' xmp_data exif_data;
      Ok (add_section section_title section_content output)
  end.

Definition format_image_metadata
    (xmp_data : option XmpRecord) (exif_data : option ExifRecord)
  : result string :=
  if negb (truthy xmp_data) && negb (truthy exif_data) then Ok sentinel
  else
    output ← render_sections sections (or_empty xmp_data) (or_empty exif_data);
    Ok (str_strip output).

End Formatter.

(** ** The extractors *)

(** What [Image.open] yields: the tag table [_getexif()] returns (or the
    exception it raises) and the auxiliary segments [applist], each a
    segment name and its payload. *)
Record image : Type := Image {
  getexif : result (option (list (Z * value)));
  applist : list (string * string);
}.

(** A line printed on standard output. *)
Inductive printed : Type :=
| ErrorReadingExif (image_path : string) (e : exn).

(** An XML element as [xml.etree.ElementTree] presents it. *)
#[local] Unset Elimination Schemes.
Inductive element : Type :=
| Element (tag : string) (text : option string)
          (attrib : list (string * string)) (children : list element).
#[local] Set Elimination Schemes.

Definition tag_of (e : element) : string :=
  match e with Element t _ _ _ => t end.
Definition text_of (e : element) : option string :=
  match e with Element _ t _ _ => t end.
Definition attrib_of (e : element) : list (string * string) :=
  match e with Element _ _ a _ => a end.

(** [root.iter()]: the element and its descendants in document order *)
Fixpoint iter (e : element) : list element :=
  match e with
  | Element _ _ _ cs => e :: flat_map iter cs
  end.

(** [s.split(sep)] for a one-character separator; [cur] is the piece
    being read, reversed. *)
Fixpoint split_on_go (sep : ascii) (cur : string) (s : string) : list string :=
  match s with
  | EmptyString => [String.rev cur]
  | String c t =>
      if Ascii.eqb c sep then String.rev cur :: split_on_go sep EmptyString t
      else split_on_go sep (String c cur) t
  end.

Definition split_on (sep : ascii) (s : string) : list string :=
  split_on_go sep EmptyString s.

(** [name.split("}")[1]] for a name that contains ["}"] *)
Definition local_name (name : string) : string :=
  default EmptyString (split_on "}" name !! 1%nat).

Definition strip_namespace (name : string) : string :=
  if str_contains "}" name then local_name name else name.

(** The entries one element adds to [metadata], in the order in which
    they are assigned. *)
Definition element_entries (e : element) : list (string * string) :=
  (if str_contains "}" (tag_of e)
   then match text_of e with
        | Some text =>
            match str_strip text with
            | EmptyString => []
            | stripped => [(local_name (tag_of e), stripped)]
            end
        | None => []
        end
   else [])
  ++ map (fun '(name, v) => (strip_namespace name, v)) (attrib_of e).

(** Successive assignments [metadata[k] = v] *)
Definition assign_all {V : Type} (kvs : list (string * V)) : gmap string V :=
  foldl (fun m '(k, v) => <[k := v]> m) ∅ kvs.

(** Whether a byte string is well-formed UTF-8. *)
Fixpoint utf8_valid_go (fuel : nat) (s : string) : bool :=
  match fuel with
  | O => true
  | S f =>
      let cont := in_range 128 191 in
      match s with
      | EmptyString => true
      | String a t =>
          if in_range 0 127 a then utf8_valid_go f t
          else match t with
          | String b t1 =>
              if in_range 194 223 a then cont b && utf8_valid_go f t1
              else match t1 with
              | String c t2 =>
                  if in_range 224 239 a then
                    (if (code a =? 224)%N then in_range 160 191 b
                     else if (code a =? 237)%N then in_range 128 159 b
                     else cont b)
                    && cont c && utf8_valid_go f t2
                  else match t2 with
                  | String d t3 =>
                      in_range 240 244 a
                      && (if (code a =? 240)%N then in_range 144 191 b
                          else if (code a =? 244)%N then in_range 128 143 b
                          else cont b)
                      && cont c && cont d && utf8_valid_go f t3
                  | EmptyString => false
                  end
              | EmptyString => false
              end
          | EmptyString => false
          end
      end
  end.

(** [b.decode("utf-8")] *)
Definition decode_utf8 (b : string) : result string :=
  if utf8_valid_go (String.length b) b then Ok b else Raise UnicodeDecodeError.

Definition xmp_marker : string := "http://ns.adobe.com/xap/1.0/".

Section Extractor.

(** [PIL.ExifTags.TAGS], the table from tag numbers to tag names, and
    [ET.fromstring], the XML parser: the two collaborators. *)
Variable TAGS : gmap Z string.
Variable fromstring : string -> result element.

(** [{TAGS[k]: v for k, v in exif.items() if k in TAGS}] *)
Definition named_tags (exif : list (Z * value)) : ExifRecord :=
  assign_all (omap (fun '(k, v) => name ← TAGS !! k; Some (name, v)) exif).

(** [get_exif]: what is printed, and what is returned.  [opened] is the
    outcome of [Image.open(image_path)]. *)
Definition get_exif (image_path : string) (opened : result image)
  : list printed * option ExifRecord :=
  match (img ← opened; getexif img) with
  | Ok (Some exif) =>
      match exif with
      | [] => ([], None)
      | _ => ([], Some (named_tags exif))
      end
  | Ok None => ([], None)
  | Raise e => ([ErrorReadingExif image_path e], None)
  end.

(** The payload of the first [APP1] segment that starts with the XMP
    namespace: the [for] loop with its [break]. *)
Definition find_xmp_segment (segments : list (string * string)) : option string :=
  snd <$> List.find
    (fun '(segment, content) =>
       bool_decide (segment = "APP1") && startswith xmp_marker content)
    segments.

(** The flat record of an [xmpmeta] tree. *)
Definition flatten (root : element) : XmpRecord :=
  assign_all (flat_map element_entries (iter root)).

Definition get_xmp_metadata (opened : result image) : result (option XmpRecord) :=
  img ← opened;
  match find_xmp_segment (applist img) with
  | Some (String _ _ as xmp_data) =>
      let xmp_start := str_find "<x:xmpmeta" xmp_data in
      let xmp_end := str_find "</x:xmpmeta" xmp_data in
      xmp_str ← decode_utf8 (str_slice xmp_data xmp_start (xmp_end + 12));
      root ← fromstring xmp_str;
      Ok (Some (flatten root))
  | _ => Ok None
  end.

End Extractor.

(** ** Vocabulary of the properties *)

(** A record that is absent or empty. *)
Definition no_metadata {V : Type} (d : option (gmap string V)) : Prop :=
  d = None \/ d = Some ∅.

(** Every character of [s] satisfies [p]. *)
Fixpoint str_forall (p : ascii -> bool) (s : string) : bool :=
  match s with
  | EmptyString => true
  | String c t => p c && str_forall p t
  end.

(** A string of exactly [n] decimal digits. *)
Definition digits (n : nat) (s : string) : Prop :=
  String.length s = n /\ str_forall is_digit s = true.

(** ["YYYY:MM:DD HH:MM:SS"] put together from its six fields. *)
Definition date_time (Y M D h m s : string) : string :=
  Y +:+ ":" +:+ M +:+ ":" +:+ D +:+ " " +:+ h +:+ ":" +:+ m +:+ ":" +:+ s.

(** [sep.join(ls)] *)
Fixpoint join (sep : string) (ls : list string) : string :=
  match ls with
  | [] => EmptyString
  | [l] => l
  | l :: ls' => l +:+ sep +:+ join sep ls'
  end.

(** A section as it stands in the report: its title line, then its
    content; nothing for an empty content. *)
Definition block (title content : string) : list string :=
  match content with
  | EmptyString => []
  | _ => [title +:+ nl +:+ content]
  end.

(** The text the loop over the sections builds from the titles and
    contents [bs]. *)
Definition sections_text (bs : list (string * string)) : string :=
  foldr (fun '(title, content) output => add_section title content output)
        EmptyString bs.

(** A text that [strip] leaves as it is. *)
Definition stripped (s : string) : Prop := str_strip s = s.

(** The EXIF record has one of the three tags of the camera section. *)
Definition has_camera_data (exif_data : ExifRecord) : Prop :=
  is_Some (exif_data !! "Make") \/ is_Some (exif_data !! "Model")
  \/ is_Some (exif_data !! "LensModel").

(** The titles and contents for which the text of the sections is
    well-formed: a title begins with a character other than whitespace,
    a content is stripped. *)
Definition well_formed (bs : list (string * string)) : Prop :=
  Forall (fun '(title, content) =>
            title <> "" /\ str_lstrip title = title /\ stripped content) bs.

(** The sections that stand in the report. *)
Definition blocks (bs : list (string * string)) : list string :=
  flat_map (fun '(title, content) => block title content) bs.

(** ** Sample data

    The records of the repository's tests, and tables for
    [EXPOSURE_PROGRAMS] and [POST_PROCESSING_KEYS] that agree with what
    the tests expect of them. *)

Definition sample_exif_data : ExifRecord :=
  list_to_map
    [ ("Make", VStr "Canon"); ("Model", VStr "EOS 200D");
      ("LensModel", VStr "EF85mm f/1.8 USM");
      ("FNumber", VFloat 0x1.6666666666666p+1);   (* 2.8 *)
      ("ExposureTime", VFloat (1 / 30));
      ("ISOSpeedRatings", VInt 400); ("FocalLength", VFloat 85);
      ("ExposureProgram", VInt 1); ("WhiteBalance", VInt 0);
      ("DateTimeOriginal", VStr "2024:07:30 22:12:59") ].

Definition sample_xmp_data : XmpRecord :=
  list_to_map
    [ ("CreatorTool", "Adobe Lightroom 7.4.1 (Windows)");
      ("CropLeft", "0.3333"); ("Exposure", "+0.28"); ("Contrast", "+5");
      ("Highlights", "-81"); ("Shadows", "+54"); ("Whites", "-3");
      ("Blacks", "-12"); ("Texture", "+55"); ("Clarity2012", "+42");
      ("Vibrance", "+15"); ("Saturation", "-3");
      ("ParametricShadowSplit", "25"); ("ParametricMidtoneSplit", "50");
      ("ParametricHighlightSplit", "75"); ("Sharpness", "40");
      ("ColorNoiseReduction", "25"); ("ColorGradeBlending", "50");
      ("DefringePurpleHueLo", "30"); ("DefringePurpleHueHi", "70");
      ("DefringeGreenHueLo", "40"); ("DefringeGreenHueHi", "60");
      ("PerspectiveScale", "100"); ("ToneCurveName2012", "Linear") ].

Definition sample_programs : gmap Z string :=
  list_to_map [ (1, "Manual"); (2, "Normal program"); (3, "Aperture priority") ].

Definition sample_keys : list string :=
  [ "Contrast"; "Shadows"; "Texture"; "Clarity2012"; "Vibrance";
    "Saturation"; "PerspectiveScale"; "ToneCurveName2012" ].



(** The text a loop builds by adding each line and a newline. *)
Definition lines_text (ls : list string) : string :=
  foldr (fun l output => l +:+ nl +:+ output) EmptyString ls.

(** The line of the crop section for the edge [label] and the percentage
    [percentage]: none when the edge has no value, or a percentage of
    magnitude [0.1] or less. *)
Definition crop_entry (label : string) (percentage : option float) : list string :=
  match percentage with
  | Some p =>
      if PrimFloat.ltb one_tenth (abs p)
      then [label +:+ ": " +:+ format_2f p +:+ "% cropped"]
      else []
  | None => []
  end.

(** The fraction the XMP record gives for a crop key. *)
Definition crop_value (xmp_data : XmpRecord) (key : string) : option float :=
  s ← xmp_data !! key; float_of_string s.

(** [l] is one of the lines of [output]. *)
Definition is_line_of (l output : string) : Prop :=
  exists pre post,
    output = pre +:+ l +:+ post
    /\ (pre = "" \/ exists p, pre = p +:+ nl)
    /\ (post = "" \/ exists q, post = nl +:+ q).

(** [round(x)] for a float [x]: the nearest integer, a tie going to the
    even one. *)
Definition py_round (x : float) : result Z :=
  match Prim2SF x with
  | S754_zero _ => Ok 0
  | S754_infinity _ => Raise OverflowError
  | S754_nan => Raise ValueError
  | S754_finite s m e =>
      let '(n, d) := ratio_of_finite m e in
      Ok (if s then - round_half_even n d else round_half_even n d)
  end.

(** The floats that the literals [0.6] and [5e-324] denote. *)
Definition six_tenths : float := 0x1.3333333333333p-1%float.
Definition least_float : float := 0x1p-1074%float.

(** The table of tag names that the tests put in the place of
    [PIL.ExifTags.TAGS], and a tag table with a tag that it does not
    know. *)
Definition sample_tags : gmap Z string :=
  {[ 271 := "Make"; 272 := "Model" ]}.

Definition sample_tag_table : list (Z * value) :=
  [ (271, VStr "Canon"); (37500, VInt 7); (272, VStr "EOS 200D") ].

(** A segment the loop of [get_xmp_metadata] passes over: one that is
    not an [APP1] segment, or does not start with the XMP marker. *)
Definition other_segment (sc : string * string) : Prop :=
  sc.1 <> "APP1" \/ startswith xmp_marker sc.2 = false.

(** The XMP packet of the repository's test of [get_xmp_metadata], the
    tree [ET.fromstring] makes of it, a parser that knows this packet
    only, and an image that holds the packet in its third segment. *)
Definition quote : string := String "034" EmptyString.

Definition sample_packet : string :=
  "<x:xmpmeta xmlns:x=" +:+ quote +:+ "http://ns.adobe.com/xap/1.0/" +:+ quote
  +:+ " xmlns:rdf=" +:+ quote
  +:+ "http://www.w3.org/1999/02/22-rdf-syntax-ns#" +:+ quote +:+ ">"
  +:+ "<rdf:RDF>"
  +:+ "<rdf:Description rdf:about=" +:+ quote +:+ quote
  +:+ " xmlns:xmp=" +:+ quote +:+ "http://ns.adobe.com/xap/1.0/" +:+ quote
  +:+ " xmp:CreatorTool=" +:+ quote +:+ "Adobe Lightroom" +:+ quote +:+ "/>"
  +:+ "</rdf:RDF>"
  +:+ "</x:xmpmeta>".

Definition sample_tree : element :=
  Element "{http://ns.adobe.com/xap/1.0/}xmpmeta" None []
    [ Element "{http://www.w3.org/1999/02/22-rdf-syntax-ns#}RDF" None []
        [ Element "{http://www.w3.org/1999/02/22-rdf-syntax-ns#}Description"
            None
            [ ("{http://www.w3.org/1999/02/22-rdf-syntax-ns#}about", "");
              ("{http://ns.adobe.com/xap/1.0/}CreatorTool", "Adobe Lightroom") ]
            [] ] ].

Definition sample_parser (s : string) : result element :=
  if bool_decide (s = sample_packet) then Ok sample_tree else Raise ParseError.

Definition sample_image : image :=
  Image (Ok None)
    [ ("APP0", "JFIF"); ("APP1", "Exif");
      ("APP1", xmp_marker +:+ sample_packet +:+ "") ].

(** ** The two commands *)

(** What a command prints on standard output: the diagnostic of
    [get_exif], or the report. *)
Inductive stdout_line : Type :=
| Diagnostic (line : printed)
| Report (text : string).

(** [os.path.basename] for POSIX paths: what follows the last ["/"].
    [cur] is the text read since the last ["/"], reversed. *)
Fixpoint basename_go (cur : string) (p : string) : string :=
  match p with
  | EmptyString => String.rev cur
  | String c t =>
      if Ascii.eqb c "/" then basename_go EmptyString t
      else basename_go (String c cur) t
  end.

Definition basename (p : string) : string := basename_go EmptyString p.

Section Commands.

Variable TAGS : gmap Z string.
Variable fromstring : string -> result element.
Variable EXPOSURE_PROGRAMS : gmap Z string.
Variable POST_PROCESSING_KEYS : list string.

(** The world of the commands.  [Image_open] is what [Image.open] gives
    for a path: each command opens its image twice, and the file is
    taken not to change in between.  [output_file name] is
    [str(OUTPUT_DIR / name)], the path of a file of the output directory,
    which is a constant of the module that is not among the sources.
    [writable path] says whether [open(path, "w")] succeeds; a file is
    written in UTF-8. *)
Variable Image_open : string -> result image.
Variable output_file : string -> string.
Variable writable : string -> bool.

(** The first three lines of both commands: the diagnostics printed,
    and the report or the exception raised. *)
Definition formatted_metadata (image_path : string)
  : list stdout_line * result string :=
  let '(out, exif) := get_exif TAGS image_path (Image_open image_path) in
  (Diagnostic <$> out,
   xmp ← get_xmp_metadata fromstring (Image_open image_path);
   format_image_metadata EXPOSURE_PROGRAMS POST_PROCESSING_KEYS xmp exif).

Definition print_metadata (image_path : string)
  : list stdout_line * result unit :=
  let '(out, formatted) := formatted_metadata image_path in
  match formatted with
  | Ok text => (out ++ [Report text], Ok tt)
  | Raise e => (out, Raise e)
  end.

(** [save_metadata], with the files it finds and leaves: what is
    printed, the files afterwards and the path returned. *)
Definition save_metadata (files : gmap string string) (image_path : string)
  : list stdout_line * gmap string string * result string :=
  let '(out, formatted) := formatted_metadata image_path in
  match formatted with
  | Ok formatted_img_data =>
      let output_path := output_file (basename image_path) +:+ ".txt" in
      if writable output_path
      then (out, <[output_path := formatted_img_data]> files, Ok output_path)
      else (out, files, Raise OSError)
  | Raise e => (out, files, Raise e)
  end.

End Commands.

(** A world for the commands: three images and an output directory in
    which every file can be written. *)
Definition sample_open (path : string) : result image :=
  if bool_decide (path = "photos/test.jpg") then Ok sample_image
  else if bool_decide (path = "photos/plain.jpg")
  then Ok (Image (Ok None) [("APP0", "JFIF")])
  else if bool_decide (path = "photos/broken.jpg")
  then Ok (Image (Raise ValueError) [("APP0", "JFIF")])
  else Raise OSError.

Definition sample_output_file (name : string) : string := "output/" +:+ name.

(* ===================================================================== *)
(** * Properties *)
(* ===================================================================== *)

(** ** The string operations on examples *)

Example strip_ex : str_strip "  a b
 " = "a b".
Proof. reflexivity. Qed.

Example split_ex : str_split " 2024:07:30   22:12:59 " = ["2024:07:30"; "22:12:59"].
Proof. reflexivity. Qed.

Example replace_ex : str_replace "2012" "" "ToneCurveName2012" = "ToneCurveName".
Proof. reflexivity. Qed.

Example title_ex : str_title "hello wORLD x2y" = "Hello World X2Y".
Proof. reflexivity. Qed.

Example slice_ex : str_slice "abcdef" (-1) 11 = "f".
Proof. reflexivity. Qed.

Example str_of_Z_ex : str_of_Z (-30) = "-30" /\ str_of_Z 0 = "0".
Proof. split; reflexivity. Qed.

(** ** Appending, reversing and stripping strings *)

Lemma sapp_cons c s t : String c s +:+ t = String c (s +:+ t).
Proof. reflexivity. Qed.

Lemma sapp_nil_r s : s +:+ "" = s.
Proof. induction s as [|c s IH]; [done|]. by rewrite sapp_cons, IH. Qed.

Lemma sapp_assoc s t u : (s +:+ t) +:+ u = s +:+ t +:+ u.
Proof. induction s as [|c s IH]; [done|]. by rewrite !sapp_cons, IH. Qed.

Lemma sapp_length s t :
  String.length (s +:+ t) = (String.length s + String.length t)%nat.
Proof. induction s as [|c s IH]; [done|]. rewrite sapp_cons. simpl. by rewrite IH. Qed.

Lemma sapp_eq_nil s t : s +:+ t = "" -> s = "" /\ t = "".
Proof. destruct s; [done|]. by rewrite sapp_cons. Qed.

Lemma rev_app_spec s t : String.rev_app s t = String.rev s +:+ t.
Proof.
  unfold String.rev. revert t.
  induction s as [|c s IH]; intros t; [done|]. simpl.
  rewrite (IH (String c "")), IH, sapp_assoc. done.
Qed.

Lemma rev_cons c s : String.rev (String c s) = String.rev s +:+ String c "".
Proof. unfold String.rev at 1. simpl. apply rev_app_spec. Qed.

Lemma rev_sapp s t : String.rev (s +:+ t) = String.rev t +:+ String.rev s.
Proof.
  induction s as [|c s IH]; [by rewrite sapp_nil_r|].
  by rewrite sapp_cons, !rev_cons, IH, sapp_assoc.
Qed.

Lemma rev_involutive s : String.rev (String.rev s) = s.
Proof.
  induction s as [|c s IH]; [done|]. by rewrite rev_cons, rev_sapp, IH.
Qed.

Lemma rev_eq_nil s : String.rev s = "" -> s = "".
Proof. intros H. by rewrite <- (rev_involutive s), H. Qed.

Lemma lstrip_app s t :
  str_lstrip (s +:+ t) =
  match str_lstrip s with "" => str_lstrip t | r => r +:+ t end.
Proof.
  induction s as [|c s IH]; [done|].
  rewrite sapp_cons. simpl. destruct (is_space c); [done|]. by rewrite sapp_cons.
Qed.

Lemma rstrip_app s t :
  str_rstrip (s +:+ t) =
  match str_rstrip t with "" => str_rstrip s | r => s +:+ r end.
Proof.
  unfold str_rstrip. rewrite rev_sapp, lstrip_app.
  destruct (str_lstrip (String.rev t)) as [|c r] eqn:E; [done|].
  rewrite rev_sapp, rev_involutive.
  destruct (String.rev (String c r)) eqn:E'; [|done].
  by apply rev_eq_nil in E'.
Qed.

Lemma rstrip_nil : str_rstrip "" = "".
Proof. reflexivity. Qed.

Lemma rstrip_single c :
  str_rstrip (String c "") = if is_space c then "" else String c "".
Proof. unfold str_rstrip. cbn. by destruct (is_space c). Qed.

(** [rstrip] read from the left: a character stays unless it and all
    that follows it is whitespace. *)
Lemma rstrip_cons c s :
  str_rstrip (String c s) =
  match str_rstrip s with
  | "" => if is_space c then "" else String c ""
  | r => String c r
  end.
Proof.
  change (String c s) with (String c "" +:+ s).
  rewrite rstrip_app, rstrip_single. by destruct (str_rstrip s).
Qed.

(** A string that begins with a character other than whitespace keeps
    it, and what precedes its last such character, under [strip]. *)
Lemma rstrip_keeps_head c s :
  is_space c = false -> exists r, str_rstrip (String c s) = String c r.
Proof.
  intros Hc. rewrite rstrip_cons, Hc. destruct (str_rstrip s); eauto.
Qed.

Lemma strip_keeps_head c s :
  is_space c = false -> exists r, str_strip (String c s) = String c r.
Proof.
  intros Hc. unfold str_strip. simpl. rewrite Hc. by apply rstrip_keeps_head.
Qed.

(** ** The sentinel *)

Lemma truthy_false {V : Type} (d : option (gmap string V)) :
  truthy d = false <-> no_metadata d.
Proof.
  unfold truthy, no_metadata. destruct d as [m|].
  - case_bool_decide as Hm; simpl; split.
    + intros _. right. by rewrite Hm.
    + done.
    + done.
    + intros [?|[= ?]]; done.
  - split; [by left|done].
Qed.

Lemma camera_settings_head xmp_data exif_data :
  exists r, format_camera_settings xmp_data exif_data = String "C" r.
Proof. unfold format_camera_settings. by apply strip_keeps_head. Qed.

Section Report.

Variable EXPOSURE_PROGRAMS : gmap Z string.
Variable POST_PROCESSING_KEYS : list string.

Local Abbreviation the_sections :=
  (sections EXPOSURE_PROGRAMS POST_PROCESSING_KEYS).
Local Abbreviation report :=
  (format_image_metadata EXPOSURE_PROGRAMS POST_PROCESSING_KEYS).

Lemma render_sections_cons title f secs xmp_data exif_data :
  render_sections ((title, f) :: secs) xmp_data exif_data =
  (section_content ← f xmp_data exif_data;
   output ← render_sections secs xmp_data exif_data;
   Ok (add_section title section_content output)).
Proof. reflexivity. Qed.

(** Whatever the records, the text of the sections begins with the first
    byte of the camera section's title. *)
Lemma render_sections_head xmp_data exif_data output :
  render_sections the_sections xmp_data exif_data = Ok output ->
  exists r, output = String "240" r.
Proof.
  destruct (camera_settings_head xmp_data exif_data) as [c Hc].
  unfold sections. rewrite render_sections_cons.
  match goal with |- context [render_sections ?l _ _] => generalize l end.
  intros secs. cbn. rewrite Hc.
  destruct (render_sections secs xmp_data exif_data) as [rest|e]; cbn; [|done].
  intros [= <-]. eauto.
Qed.

(** C1.  [format_image_metadata] returns the sentinel ["No metadata
    present"] when both records are absent or empty, and only then: with
    a record that is not empty it returns another text or raises. *)
Theorem sentinel_iff_no_metadata
    (xmp_data : option XmpRecord) (exif_data : option ExifRecord) :
  report xmp_data exif_data = Ok sentinel
  <-> no_metadata xmp_data /\ no_metadata exif_data.
Proof.
  rewrite <- !truthy_false. unfold format_image_metadata.
  destruct (truthy xmp_data) eqn:Hx, (truthy exif_data) eqn:He; cbn [negb andb];
    try (split; [|intros [? ?]; done]);
    try (destruct (render_sections _ _ _) as [output|e] eqn:Hr; cbn; [|done];
         apply render_sections_head in Hr as [r ->];
         destruct (strip_keeps_head "240" r eq_refl) as [r' ->]; done).
  done.
Qed.

End Report.

(** ** The capture date *)

Lemma str_forall_impl (p q : ascii -> bool) s :
  (forall c, p c = true -> q c = true) ->
  str_forall p s = true -> str_forall q s = true.
Proof.
  intros Hpq. induction s as [|c s IH]; [done|]. simpl.
  intros [Hc Hs]%andb_true_iff. by rewrite (Hpq c Hc), IH.
Qed.

Lemma str_forall_app p s t :
  str_forall p (s +:+ t) = str_forall p s && str_forall p t.
Proof.
  induction s as [|c s IH]; [done|]. rewrite sapp_cons. simpl.
  by rewrite IH, andb_assoc.
Qed.

Lemma digit_not_space c : is_digit c = true -> negb (is_space c) = true.
Proof. destruct c as [[] [] [] [] [] [] [] []]; by vm_compute. Qed.

Lemma digit_not_colon c : is_digit c = true -> negb (Ascii.eqb c ":") = true.
Proof. destruct c as [[] [] [] [] [] [] [] []]; by vm_compute. Qed.

Lemma colon_not_space : negb (is_space ":") = true.
Proof. reflexivity. Qed.

(** [split] reads a run without whitespace in one go. *)
Lemma split_go_word cur w r :
  str_forall (fun c => negb (is_space c)) w = true ->
  split_go cur (w +:+ r) = split_go (String.rev w +:+ cur) r.
Proof.
  revert cur. induction w as [|c w IH]; intros cur; [done|].
  cbn [str_forall]. intros [Hc Hw]%andb_true_iff.
  change (String c w +:+ r) with (String c (w +:+ r)). cbn [split_go].
  apply negb_true_iff in Hc. rewrite Hc, IH by done.
  by rewrite rev_cons, sapp_assoc.
Qed.

Lemma split_two d t :
  d <> "" -> t <> "" ->
  str_forall (fun c => negb (is_space c)) d = true ->
  str_forall (fun c => negb (is_space c)) t = true ->
  str_split (d +:+ " " +:+ t) = [d; t].
Proof.
  intros Hd Ht Hsd Hst. unfold str_split.
  rewrite split_go_word, sapp_nil_r by done.
  change (" " +:+ t) with (String " " t).
  destruct (String.rev d) as [|c r] eqn:Ed; [by apply rev_eq_nil in Ed|].
  cbn [split_go]. change (is_space " ") with true. cbn iota.
  rewrite <- Ed, rev_involutive. f_equal.
  rewrite <- (sapp_nil_r t), split_go_word, sapp_nil_r by done.
  destruct (String.rev t) as [|c' r'] eqn:Et; [by apply rev_eq_nil in Et|].
  cbn [split_go]. by rewrite <- Et, rev_involutive, sapp_nil_r.
Qed.

(** Replacing one character by another leaves a run without it alone. *)
Lemma replace_colon_run w r :
  str_forall (fun c => negb (Ascii.eqb c ":")) w = true ->
  replace_go ":" "-" 0 (w +:+ r) = w +:+ replace_go ":" "-" 0 r.
Proof.
  induction w as [|c w IH]; [done|]. cbn [str_forall].
  intros [Hc Hw]%andb_true_iff.
  change (String c w +:+ ?x) with (String c (w +:+ x)). cbn [replace_go].
  unfold startswith. cbn [String.prefix].
  destruct (ascii_dec ":" c) as [<-|_]; [done|]. by rewrite IH.
Qed.

Lemma replace_colon_colon r :
  replace_go ":" "-" 0 (":" +:+ r) = "-" +:+ replace_go ":" "-" 0 r.
Proof.
  change (":" +:+ r) with (String ":" r). cbn [replace_go]. unfold startswith. cbn [String.prefix].
  destruct (ascii_dec ":" ":"); [|done]. by destruct r.
Qed.

Lemma replace_colon_clean w :
  str_forall (fun c => negb (Ascii.eqb c ":")) w = true ->
  replace_go ":" "-" 0 w = w.
Proof.
  intros H. rewrite <- (sapp_nil_r w) at 1.
  by rewrite replace_colon_run, sapp_nil_r.
Qed.

Lemma digits_nonempty n s : digits (S n) s -> s <> "".
Proof. intros [Hl _] ->. done. Qed.

Lemma digits_no_space n s :
  digits n s -> str_forall (fun c => negb (is_space c)) s = true.
Proof. intros [_ H]. revert H. apply str_forall_impl, digit_not_space. Qed.

Lemma digits_no_colon n s :
  digits n s -> str_forall (fun c => negb (Ascii.eqb c ":")) s = true.
Proof. intros [_ H]. revert H. apply str_forall_impl, digit_not_colon. Qed.

(** Three fields joined by colons hold no whitespace. *)
Lemma fields_no_space na nb nc a b c :
  digits na a -> digits nb b -> digits nc c ->
  str_forall (fun c => negb (is_space c)) (a +:+ ":" +:+ b +:+ ":" +:+ c) = true.
Proof.
  intros Ha Hb Hc. rewrite !str_forall_app.
  rewrite (digits_no_space _ _ Ha), (digits_no_space _ _ Hb),
    (digits_no_space _ _ Hc). reflexivity.
Qed.

Lemma date_time_parts Y M D h m s :
  date_time Y M D h m s
  = (Y +:+ ":" +:+ M +:+ ":" +:+ D) +:+ " " +:+ (h +:+ ":" +:+ m +:+ ":" +:+ s).
Proof. unfold date_time. by rewrite !sapp_assoc. Qed.

Lemma date_hyphens Y M D :
  digits 4 Y -> digits 2 M -> digits 2 D ->
  str_replace ":" "-" (Y +:+ ":" +:+ M +:+ ":" +:+ D)
  = Y +:+ "-" +:+ M +:+ "-" +:+ D.
Proof.
  intros HY HM HD. unfold str_replace.
  rewrite replace_colon_run by eauto using digits_no_colon.
  rewrite replace_colon_colon.
  rewrite replace_colon_run by eauto using digits_no_colon.
  rewrite replace_colon_colon.
  rewrite replace_colon_clean by eauto using digits_no_colon.
  reflexivity.
Qed.

(** C7.  Without [DateTimeOriginal] the capture date is the empty
    string.  With a [DateTimeOriginal] of the form ["YYYY:MM:DD
    HH:MM:SS"] it is ["Captured on YYYY-MM-DD at HH:MM:SS"]: the value
    split at the whitespace, the colons of the date turned into
    hyphens. *)
Theorem format_capture_date_spec (xmp_data : XmpRecord) (exif_data : ExifRecord) :
  (exif_data !! "DateTimeOriginal" = None ->
   format_capture_date xmp_data exif_data = Ok "")
  /\
  (forall Y M D h m s,
     digits 4 Y -> digits 2 M -> digits 2 D ->
     digits 2 h -> digits 2 m -> digits 2 s ->
     exif_data !! "DateTimeOriginal" = Some (VStr (date_time Y M D h m s)) ->
     str_split (date_time Y M D h m s)
       = [Y +:+ ":" +:+ M +:+ ":" +:+ D; h +:+ ":" +:+ m +:+ ":" +:+ s]
     /\ format_capture_date xmp_data exif_data
       = Ok ("Captured on " +:+ Y +:+ "-" +:+ M +:+ "-" +:+ D
             +:+ " at " +:+ h +:+ ":" +:+ m +:+ ":" +:+ s)).
Proof.
  unfold format_capture_date, when_present. split; [by intros ->|].
  intros Y M D h m s HY HM HD Hh Hm Hs ->.
  assert (str_split (date_time Y M D h m s)
          = [Y +:+ ":" +:+ M +:+ ":" +:+ D; h +:+ ":" +:+ m +:+ ":" +:+ s]) as Hsplit.
  { rewrite date_time_parts. apply split_two.
    - intros [E _]%sapp_eq_nil. by apply (digits_nonempty _ _ HY).
    - intros [E _]%sapp_eq_nil. by apply (digits_nonempty _ _ Hh).
    - by eapply fields_no_space.
    - by eapply fields_no_space. }
  split; [done|]. rewrite Hsplit, date_hyphens by done.
  by rewrite !sapp_assoc.
Qed.

Example capture_date_example :
  format_capture_date ∅ {[ "DateTimeOriginal" := VStr "2024:07:30 22:12:59" ]}
  = Ok "Captured on 2024-07-30 at 22:12:59".
Proof. reflexivity. Qed.

Lemma format_capture_date_witness :
  format_capture_date ∅ (∅ : ExifRecord) = Ok ""
  /\ format_capture_date ∅ {[ "DateTimeOriginal" := VStr "2024:07:30 22:12:59" ]}
     = Ok "Captured on 2024-07-30 at 22:12:59".
Proof.
  split.
  - by apply (proj1 (format_capture_date_spec ∅ ∅)).
  - apply (proj2 (format_capture_date_spec
                    ∅ {[ "DateTimeOriginal" := VStr "2024:07:30 22:12:59" ]})
             "2024" "07" "30" "22" "12" "59"); by vm_compute.
Defined.

(** ** Stripped texts *)

Lemma lstrip_head s :
  str_lstrip s = "" \/ exists c r, str_lstrip s = String c r /\ is_space c = false.
Proof.
  induction s as [|c s IH]; [by left|]. simpl.
  destruct (is_space c) eqn:Hc; [done|]. right. eauto.
Qed.

Lemma lstrip_idem s : str_lstrip (str_lstrip s) = str_lstrip s.
Proof.
  destruct (lstrip_head s) as [->|(c & r & -> & Hc)]; [done|].
  simpl. by rewrite Hc.
Qed.

Lemma rstrip_idem s : str_rstrip (str_rstrip s) = str_rstrip s.
Proof. unfold str_rstrip. by rewrite rev_involutive, lstrip_idem. Qed.

Lemma strip_stripped s : stripped (str_strip s).
Proof.
  unfold stripped, str_strip.
  destruct (lstrip_head s) as [->|(c & r & -> & Hc)]; [done|].
  destruct (rstrip_keeps_head c r Hc) as [r' E]. rewrite E at 1.
  simpl. rewrite Hc, <- E. apply rstrip_idem.
Qed.

Lemma stripped_rstrip s : stripped s -> str_rstrip s = s.
Proof.
  unfold stripped, str_strip. intros E. rewrite <- E at 1.
  by rewrite rstrip_idem.
Qed.

Lemma stripped_lstrip s : stripped s -> str_lstrip s = s.
Proof.
  intros E. rewrite <- E. unfold str_strip.
  destruct (lstrip_head s) as [->|(c & r & -> & Hc)]; [done|].
  destruct (rstrip_keeps_head c r Hc) as [r' ->]. simpl. by rewrite Hc.
Qed.

(** A text without whitespace at either end is stripped. *)
Lemma stripped_intro s :
  str_lstrip s = s -> str_rstrip s = s -> stripped s.
Proof. unfold stripped, str_strip. by intros -> ->. Qed.

(** [lstrip] leaves what follows a text that begins with a character
    other than whitespace. *)
Lemma lstrip_app_head t x :
  t <> "" -> str_lstrip t = t -> str_lstrip (t +:+ x) = t +:+ x.
Proof.
  intros Ht E. rewrite lstrip_app, E. by destruct t.
Qed.

(** [rstrip] leaves what precedes a text that ends with a character
    other than whitespace. *)
Lemma rstrip_app_tail x c :
  c <> "" -> str_rstrip c = c -> str_rstrip (x +:+ c) = x +:+ c.
Proof.
  intros Hc E. rewrite rstrip_app, E. by destruct c.
Qed.

(** ** The text of the sections *)

Lemma join_cons sep l ls :
  join sep (l :: ls) = match ls with [] => l | _ => l +:+ sep +:+ join sep ls end.
Proof. by destruct ls. Qed.

Lemma block_nonempty title content b : b ∈ block title content -> b <> "".
Proof.
  unfold block. destruct content as [|c r]; [by intros ?%elem_of_nil|].
  intros ->%list_elem_of_singleton H.
  apply sapp_eq_nil in H as [_ H]. apply sapp_eq_nil in H as [H _].
  discriminate H.
Qed.

Lemma blocks_nonempty bs b : b ∈ blocks bs -> b <> "".
Proof.
  unfold blocks. intros ([t c] & _ & Hb)%list_elem_of_In%in_flat_map.
  apply list_elem_of_In in Hb. by eapply block_nonempty.
Qed.

Lemma join_nonempty sep b bs : b <> "" -> join sep (b :: bs) <> "".
Proof.
  intros Hb. rewrite join_cons. destruct bs; [done|].
  by intros [? _]%sapp_eq_nil.
Qed.

Lemma sections_text_lstrip bs :
  well_formed bs -> str_lstrip (sections_text bs) = sections_text bs.
Proof.
  induction 1 as [|[t c] bs (Ht & Hl & Hc) _ IH]; [done|].
  cbn [sections_text foldr]. unfold add_section.
  destruct c; [exact IH|]. by apply lstrip_app_head.
Qed.

Lemma sections_text_rstrip bs :
  well_formed bs -> str_rstrip (sections_text bs) = join nl (blocks bs).
Proof.
  induction 1 as [|[t c] bs (Ht & Hl & Hc) _ IH]; [done|].
  cbn [sections_text foldr blocks flat_map]. fold (sections_text bs) (blocks bs).
  unfold add_section, block.
  destruct c as [|a c]; [exact IH|]. cbn [app]. rewrite join_cons.
  set (content := String a c) in *.
  replace (t +:+ nl +:+ content +:+ nl +:+ sections_text bs)
    with ((t +:+ nl +:+ content) +:+ String "010" (sections_text bs))
    by (by rewrite !sapp_assoc).
  rewrite rstrip_app, rstrip_cons, IH.
  destruct (blocks bs) as [|b bs'] eqn:Eb.
  - cbn [join]. change (is_space "010") with true. cbn iota.
    rewrite <- sapp_assoc. apply rstrip_app_tail; [done|].
    by apply stripped_rstrip.
  - destruct (join nl (b :: bs')) eqn:Ej.
    + exfalso. eapply join_nonempty; [|exact Ej].
      apply (blocks_nonempty bs). rewrite Eb. by left.
    + by rewrite !sapp_assoc.
Qed.

Lemma sections_text_strip bs :
  well_formed bs -> str_strip (sections_text bs) = join nl (blocks bs).
Proof.
  intros H. unfold str_strip.
  by rewrite sections_text_lstrip, sections_text_rstrip.
Qed.

(** ** The contents of the sections are stripped *)

Lemma str_forall_rev p s : str_forall p (String.rev s) = str_forall p s.
Proof.
  induction s as [|c s IH]; [done|].
  rewrite rev_cons, str_forall_app, IH. simpl.
  by rewrite andb_true_r, andb_comm.
Qed.

(** The words [split] returns are not empty and hold no whitespace. *)
Lemma split_go_words s cur w :
  str_forall (fun c => negb (is_space c)) cur = true ->
  w ∈ split_go cur s ->
  w <> "" /\ str_forall (fun c => negb (is_space c)) w = true.
Proof.
  revert cur. induction s as [|c s IH]; intros cur Hcur; cbn [split_go].
  - destruct cur as [|a cur]; [by intros ?%elem_of_nil|].
    intros ->%list_elem_of_singleton. split.
    + intros E%rev_eq_nil. done.
    + by rewrite str_forall_rev.
  - destruct (is_space c) eqn:Hc.
    + destruct cur as [|a cur]; [by apply (IH "" eq_refl)|].
      intros [->|Hw]%elem_of_cons; [|by apply (IH "" eq_refl)].
      split; [by intros E%rev_eq_nil|by rewrite str_forall_rev].
    + apply IH. cbn [str_forall]. by rewrite Hc, Hcur.
Qed.

Lemma no_space_rstrip w :
  str_forall (fun c => negb (is_space c)) w = true -> str_rstrip w = w.
Proof.
  induction w as [|c w IH]; [done|]. cbn [str_forall].
  intros [Hc Hw]%andb_true_iff. rewrite rstrip_cons, IH by done.
  apply negb_true_iff in Hc. rewrite Hc. by destruct w.
Qed.

Lemma format_capture_date_stripped xmp_data exif_data content :
  format_capture_date xmp_data exif_data = Ok content -> stripped content.
Proof.
  unfold format_capture_date, when_present.
  destruct (exif_data !! "DateTimeOriginal") as [[s| |]|]; try done.
  - destruct (str_split s) as [|date [|time [|]]] eqn:Es; try done.
    intros [= <-].
    assert (time ∈ str_split s) as Ht by (rewrite Es; set_solver).
    apply split_go_words in Ht as [Hne Hsp]; [|done].
    apply stripped_intro; [done|].
    rewrite <- !sapp_assoc. apply rstrip_app_tail; [done|].
    by apply no_space_rstrip.
  - by intros [= <-].
Qed.

Lemma format_settings_stripped xmp_data exif_data content :
  format_settings xmp_data exif_data = Ok content -> stripped content.
Proof.
  unfold format_settings.
  destruct (when_present _ "FNumber" _); [|done].
  destruct (when_present _ "ExposureTime" _); [|done].
  destruct (when_present _ "ISOSpeedRatings" _); [|done].
  destruct (when_present _ "FocalLength" _); [|done].
  intros [= <-]. apply strip_stripped.
Qed.

Lemma format_crop_info_stripped xmp_data exif_data content :
  format_crop_info xmp_data exif_data = Ok content -> stripped content.
Proof.
  unfold format_crop_info. destruct (concat_lines _ _); [|done].
  intros [= <-]. apply strip_stripped.
Qed.

Lemma format_post_processing_stripped keys xmp_data exif_data content :
  format_post_processing keys xmp_data exif_data = Ok content ->
  stripped content.
Proof.
  unfold format_post_processing. destruct (concat_lines _ _); [|done].
  intros [= <-]. apply strip_stripped.
Qed.

Section ReportStructure.

Variable EXPOSURE_PROGRAMS : gmap Z string.
Variable POST_PROCESSING_KEYS : list string.

Local Abbreviation the_sections :=
  (sections EXPOSURE_PROGRAMS POST_PROCESSING_KEYS).
Local Abbreviation report :=
  (format_image_metadata EXPOSURE_PROGRAMS POST_PROCESSING_KEYS).
Local Abbreviation tech_details := (format_tech_details EXPOSURE_PROGRAMS).
Local Abbreviation post_processing :=
  (format_post_processing POST_PROCESSING_KEYS).

(** C3, as the code has it.  When a record is not empty and the
    formatters of the settings, crop, post-processing and capture-date
    sections return, the report is the sections in their fixed order,
    joined by newlines, each one its title line followed by its content;
    a section whose content is the empty string is left out, title and
    all.  The camera section is never left out: its content always holds
    its two lines.  The report is a function of the two records and the
    two tables, so equal records give equal reports. *)
Theorem report_is_the_sections
    (xmp_data : option XmpRecord) (exif_data : option ExifRecord)
    (settings crop post date : string) :
  ~ (no_metadata xmp_data /\ no_metadata exif_data) ->
  format_settings (or_empty xmp_data) (or_empty exif_data) = Ok settings ->
  format_crop_info (or_empty xmp_data) (or_empty exif_data) = Ok crop ->
  post_processing (or_empty xmp_data) (or_empty exif_data) = Ok post ->
  format_capture_date (or_empty xmp_data) (or_empty exif_data) = Ok date ->
  report xmp_data exif_data =
  Ok (join nl
        (["📸 Camera Settings Breakdown 📸" +:+ nl +:+
          format_camera_settings (or_empty xmp_data) (or_empty exif_data)]
         ++ block "📊 Settings" settings
         ++ block "🔍 Tech Details"
              (tech_details (or_empty xmp_data) (or_empty exif_data))
         ++ block "✂️ Crop Info" crop
         ++ block "✨ Post-Processing" post
         ++ block "📅 Capture Date" date)).
Proof.
  intros Hne Hs Hc Hp Hd. unfold format_image_metadata.
  destruct (negb (truthy xmp_data) && negb (truthy exif_data)) eqn:Ht.
  { exfalso. apply Hne. apply andb_true_iff in Ht as [Hx He].
    apply negb_true_iff in Hx, He. by rewrite <- !truthy_false. }
  set (x := or_empty xmp_data) in *. set (e := or_empty exif_data) in *.
  assert (render_sections the_sections x e =
          Ok (sections_text
                [("📸 Camera Settings Breakdown 📸", format_camera_settings x e);
                 ("📊 Settings", settings);
                 ("🔍 Tech Details", tech_details x e);
                 ("✂️ Crop Info", crop);
                 ("✨ Post-Processing", post);
                 ("📅 Capture Date", date)])) as ->.
  { unfold sections. rewrite !render_sections_cons, Hs, Hc, Hp, Hd.
    reflexivity. }
  cbn [mbind result_bind]. f_equal. rewrite sections_text_strip.
  - cbn [blocks flat_map]. rewrite app_nil_r.
    destruct (camera_settings_head x e) as [r ->]. reflexivity.
  - unfold well_formed.
    repeat (apply List.Forall_cons; [split; [done|split; [done|]]|]);
      [..|apply List.Forall_nil].
    + apply strip_stripped.
    + by eapply format_settings_stripped.
    + apply strip_stripped.
    + by eapply format_crop_info_stripped.
    + by eapply format_post_processing_stripped.
    + by eapply format_capture_date_stripped.
Qed.

End ReportStructure.

Lemma sample_has_metadata :
  ~ (no_metadata (Some sample_xmp_data) /\ no_metadata (Some sample_exif_data)).
Proof.
  intros [[H|H] _]; [done|].
  pose proof (f_equal (fun o : option XmpRecord =>
                         m ← o; m !! "CropLeft") H) as H'.
  by vm_compute in H'.
Qed.

Lemma report_is_the_sections_witness :
  format_image_metadata sample_programs sample_keys
    (Some sample_xmp_data) (Some sample_exif_data)
  = Ok (join nl
     [ "📸 Camera Settings Breakdown 📸";
       "Camera: Canon EOS 200D"; "Lens: EF85mm f/1.8 USM";
       "📊 Settings";
       "Aperture: f/2.8"; "Shutter Speed: 1/30 sec"; "ISO: 400";
       "Focal Length: 85.0 mm";
       "🔍 Tech Details";
       "Shot in Manual mode"; "White Balance: Auto";
       "✂️ Crop Info";
       "Left: 33.33% cropped";
       "✨ Post-Processing";
       "Edited in Adobe Lightroom 7.4.1 (Windows)";
       "Contrast: +5"; "Shadows: +54"; "Texture: +55"; "Clarity: +42";
       "Vibrance: +15"; "Saturation: -3"; "Tone Curve Name: Linear";
       "📅 Capture Date";
       "Captured on 2024-07-30 at 22:12:59" ]).
Proof.
  refine (eq_trans
    (report_is_the_sections sample_programs sample_keys
       (Some sample_xmp_data) (Some sample_exif_data)
       (join nl ["Aperture: f/2.8"; "Shutter Speed: 1/30 sec"; "ISO: 400";
                 "Focal Length: 85.0 mm"])
       "Left: 33.33% cropped"
       (join nl ["Edited in Adobe Lightroom 7.4.1 (Windows)";
                 "Contrast: +5"; "Shadows: +54"; "Texture: +55";
                 "Clarity: +42"; "Vibrance: +15"; "Saturation: -3";
                 "Tone Curve Name: Linear"])
       "Captured on 2024-07-30 at 22:12:59"
       sample_has_metadata _ _ _ _) _); by vm_compute.
Defined.

(** C3, as the claim has it, fails for the camera section: with no EXIF
    record at all, and so none of the tags [Make], [Model] and
    [LensModel], the report still holds the camera section, its two
    lines empty. *)
Lemma camera_section_without_data :
  ~ has_camera_data (or_empty None)
  /\ format_image_metadata sample_programs sample_keys
       (Some {[ "CreatorTool" := "Darktable" ]}) None
     = Ok (join nl
        [ "📸 Camera Settings Breakdown 📸"; "Camera: "; "Lens:";
          "✨ Post-Processing"; "Edited in Darktable" ]).
Proof.
  split; [|by vm_compute].
  intros [H|[H|H]]; by apply is_Some_None in H.
Qed.

(** ** Matching the pattern of duplicate words *)
























Example duplicates_examples :
  map (re_sub re_duplicates (cap 1))
      ["Canon Canon"; "Canon EOS 200D"; "ab ab abc  a a a  EOS EOS-1D"; "aa a"]
  = ["Canon"; "Canon EOS 200D"; "ab abc  a  EOS-1D"; "aa a"].
Proof. reflexivity. Qed.

(** ** The camera section *)






(** ** Lines *)

Lemma lines_text_app ls1 ls2 :
  lines_text (ls1 ++ ls2) = lines_text ls1 +:+ lines_text ls2.
Proof.
  induction ls1 as [|l ls1 IH]; [done|].
  cbn [app lines_text foldr]. fold (lines_text (ls1 ++ ls2)) (lines_text ls1).
  by rewrite IH, !sapp_assoc.
Qed.

Lemma lines_text_single l : lines_text [l] = l +:+ nl.
Proof. reflexivity. Qed.

(** Stripping the text of lines that are themselves stripped takes the
    last newline away and nothing else. *)
Lemma strip_lines_text ls :
  Forall (fun l => l <> "" /\ stripped l) ls ->
  str_strip (lines_text ls) = join nl ls.
Proof.
  intros Hls. unfold str_strip.
  assert (str_lstrip (lines_text ls) = lines_text ls) as ->.
  { destruct Hls as [|l ls [Hne Hl] _]; [done|].
    cbn [lines_text foldr]. by apply lstrip_app_head, stripped_lstrip. }
  induction Hls as [|l ls [Hne Hl] Hls IH]; [done|].
  cbn [lines_text foldr]. fold (lines_text ls).
  change (nl +:+ lines_text ls) with (String "010" (lines_text ls)).
  rewrite rstrip_app, rstrip_cons, IH, join_cons.
  destruct Hls as [|l' ls' [Hne' _] _].
  - cbn [join]. change (is_space "010") with true. cbn iota.
    by apply stripped_rstrip.
  - destruct (join nl (l' :: ls')) eqn:Ej; [|done].
    exfalso. by eapply join_nonempty.
Qed.

(** ** The crop section *)

Lemma crop_entry_lines label percentage :
  label <> "" -> str_lstrip label = label ->
  Forall (fun l => l <> "" /\ stripped l) (crop_entry label percentage).
Proof.
  intros Hne Hl. unfold crop_entry.
  destruct percentage as [p|]; [|by constructor].
  destruct (PrimFloat.ltb _ _); constructor; [|by constructor]. split.
  - intros [E _]%sapp_eq_nil. done.
  - apply stripped_intro; [by apply lstrip_app_head|].
    rewrite <- !sapp_assoc. by apply rstrip_app_tail.
Qed.

(** What the loop adds for one key, when its value reads as a float. *)
Lemma crop_line_entry xmp_data key :
  (forall s, xmp_data !! key = Some s -> float_of_string s <> None) ->
  crop_line xmp_data key
  = Ok (lines_text
          (crop_entry (str_drop 4 key)
             (crop_percentage key <$> crop_value xmp_data key))).
Proof.
  intros Hparse. unfold crop_line, when_present, crop_value.
  destruct (xmp_data !! key) as [s|] eqn:Es; [|done].
  specialize (Hparse s eq_refl). cbn [mbind option_bind].
  destruct (float_of_string s) as [v|]; [|done].
  cbn [fmap option_fmap option_map crop_entry].
  destruct (PrimFloat.ltb _ _); [|done].
  by rewrite lines_text_single, !sapp_assoc.
Qed.

(** C5.  When the values of the crop keys that are present read as
    floats, the crop section is the lines of the four edges, in the
    order left, right, top, bottom: the percentage is [value * 100] for
    [CropLeft] and [CropTop] and [(1 - value) * 100] for [CropRight] and
    [CropBottom]; an edge has its line ["{edge}: {percentage:.2f}%
    cropped"] exactly when the magnitude of its percentage exceeds
    [0.1], and the edge is the key without its prefix [Crop]. *)
Theorem format_crop_info_lines (xmp_data : XmpRecord) (exif_data : ExifRecord) :
  (forall key s, key ∈ crop_keys ->
     xmp_data !! key = Some s -> float_of_string s <> None) ->
  format_crop_info xmp_data exif_data
  = Ok (join nl
      (crop_entry "Left"
         ((fun value => value * 100)%float <$> crop_value xmp_data "CropLeft")
       ++ crop_entry "Right"
         ((fun value => (1 - value) * 100)%float <$> crop_value xmp_data "CropRight")
       ++ crop_entry "Top"
         ((fun value => value * 100)%float <$> crop_value xmp_data "CropTop")
       ++ crop_entry "Bottom"
         ((fun value => (1 - value) * 100)%float <$> crop_value xmp_data "CropBottom"))).
Proof.
  intros Hparse. unfold format_crop_info, crop_keys. cbn [concat_lines].
  rewrite !crop_line_entry by (intros s; apply Hparse; set_solver).
  cbn [mbind result_bind]. f_equal.
  rewrite sapp_nil_r, <- !lines_text_app.
  apply strip_lines_text.
  repeat apply Forall_app_2; by apply crop_entry_lines.
Qed.

Lemma format_crop_info_witness :
  format_crop_info {[ "CropLeft" := "0.3333" ]} ∅ = Ok "Left: 33.33% cropped".
Proof.
  refine (eq_trans
    (format_crop_info_lines {[ "CropLeft" := "0.3333" ]} ∅ _) _);
    [|by vm_compute].
  intros key s _ [<- <-]%lookup_singleton_Some. by vm_compute.
Defined.

Example crop_examples :
  format_crop_info
    (list_to_map [("CropLeft", "0.0005"); ("CropRight", "0.9");
                  ("CropTop", "0.125"); ("CropBottom", "1")]) ∅
  = Ok (join nl ["Right: 10.00% cropped"; "Top: 12.50% cropped"]).
Proof. by vm_compute. Qed.

(** ** The post-processing section *)

Example camel_to_standard_examples :
  map camel_to_standard ["camelCaseString"; "PascalCaseString"; "Clarity";
                         "ToneCurveName"; "PerspectiveScale"; "DefringePurpleHueLo"]
  = ["Camel Case String"; "Pascal Case String"; "Clarity";
     "Tone Curve Name"; "Perspective Scale"; "Defringe Purple Hue Lo"].
Proof. reflexivity. Qed.

Example display_line_examples :
  display_line "Clarity2012" "+42" = "Clarity: +42" +:+ nl
  /\ display_line "ToneCurveName2012" "Linear" = "Tone Curve Name: Linear" +:+ nl
  /\ display_line "PerspectiveScale" "87" = "Perspective Scale: 87" +:+ nl.
Proof. repeat split; reflexivity. Qed.



Example post_processing_suppressed :
  post_processing_line "Saturation" "0" = Ok ""
  /\ post_processing_line "PerspectiveScale" "100" = Ok ""
  /\ post_processing_line "ConvertToGrayscale" "false" = Ok "".
Proof. by vm_compute. Qed.

(** C4, as the claim has it, fails for [PerspectiveScale]: the value
    ["100.5"] reads as a number that is neither zero nor equal to [100],
    and yet it has no line, its integer part being [100]. *)
Lemma perspective_scale_integer_part :
  float_of_string "100.5" = Some 100.5%float
  /\ PrimFloat.eqb 100.5 100 = false
  /\ PrimFloat.eqb 100.5 0 = false
  /\ post_processing_line "PerspectiveScale" "100.5" = Ok ""
  /\ format_post_processing ["PerspectiveScale"]
       {[ "PerspectiveScale" := "100.5" ]} ∅ = Ok "".
Proof. repeat split; by vm_compute. Qed.

Example post_processing_example :
  format_post_processing sample_keys sample_xmp_data sample_exif_data
  = Ok (join nl ["Edited in Adobe Lightroom 7.4.1 (Windows)";
                 "Contrast: +5"; "Shadows: +54"; "Texture: +55";
                 "Clarity: +42"; "Vibrance: +15"; "Saturation: -3";
                 "Tone Curve Name: Linear"]).
Proof. by vm_compute. Qed.

(** ** The tech-details section *)

(** A line that begins with the text [t] and ends with the text [c],
    neither of them with whitespace at the outer end, is stripped. *)
Lemma framed_stripped t x c :
  t <> "" -> str_lstrip t = t -> c <> "" -> str_rstrip c = c ->
  (t +:+ x +:+ c) <> "" /\ stripped (t +:+ x +:+ c).
Proof.
  intros Ht Hl Hc Hr. split.
  - intros [E _]%sapp_eq_nil. done.
  - apply stripped_intro; [by apply lstrip_app_head|].
    rewrite <- sapp_assoc. by apply rstrip_app_tail.
Qed.

(** X1.  The tech-details section is the line ["Shot in {program}
    mode"], when the record has [ExposureProgram], followed by the line
    ["White Balance: Auto"] or ["White Balance: Manual"], when it has
    [WhiteBalance]: the program is the entry of the table for the value
    of the tag, ["Unknown"] when the table has none; the white balance is
    ["Auto"] exactly for a value equal to zero.  The section is empty
    exactly when the record has neither tag. *)
Theorem format_tech_details_lines (EXPOSURE_PROGRAMS : gmap Z string)
    (xmp_data : XmpRecord) (exif_data : ExifRecord) :
  format_tech_details EXPOSURE_PROGRAMS xmp_data exif_data
  = join nl
      (match exif_data !! "ExposureProgram" with
       | Some v =>
           ["Shot in "
            +:+ default "Unknown" (k ← int_key v; EXPOSURE_PROGRAMS !! k)
            +:+ " mode"]
       | None => []
       end
       ++ match exif_data !! "WhiteBalance" with
          | Some v =>
              ["White Balance: " +:+ (if eq_zero v then "Auto" else "Manual")]
          | None => []
          end)
  /\ (format_tech_details EXPOSURE_PROGRAMS xmp_data exif_data = ""
      <-> exif_data !! "ExposureProgram" = None
          /\ exif_data !! "WhiteBalance" = None).
Proof.
  unfold format_tech_details.
  destruct (exif_data !! "ExposureProgram") as [v|];
    destruct (exif_data !! "WhiteBalance") as [w|].
  - set (name := default "Unknown" _).
    set (wb := if eq_zero w then "Auto" else "Manual").
    assert (str_strip (("Shot in " +:+ name +:+ " mode" +:+ nl)
                       +:+ "White Balance: " +:+ wb +:+ nl)
            = join nl ["Shot in " +:+ name +:+ " mode"; "White Balance: " +:+ wb])
      as ->.
    { rewrite <- (strip_lines_text
                    ["Shot in " +:+ name +:+ " mode"; "White Balance: " +:+ wb]).
      - cbn [lines_text foldr]. by rewrite !sapp_assoc, sapp_nil_r.
      - repeat (apply List.Forall_cons; [|]); [..|apply List.Forall_nil].
        + by apply framed_stripped.
        + subst wb. by destruct (eq_zero w). }
    split; [done|]. split; [|by intros [? _]]. cbn [join].
    intros [E _]%sapp_eq_nil. done.
  - set (name := default "Unknown" _).
    assert (str_strip (("Shot in " +:+ name +:+ " mode" +:+ nl) +:+ "")
            = join nl ["Shot in " +:+ name +:+ " mode"]) as ->.
    { rewrite <- (strip_lines_text ["Shot in " +:+ name +:+ " mode"]).
      - cbn [lines_text foldr]. by rewrite !sapp_assoc, !sapp_nil_r.
      - apply List.Forall_cons; [|apply List.Forall_nil].
        by apply framed_stripped. }
    split; [done|]. split; [|by intros [? _]]. cbn [join].
    intros [E _]%sapp_eq_nil. done.
  - split; [by destruct (eq_zero w)|].
    split; [by destruct (eq_zero w)|by intros [_ ?]].
  - done.
Qed.

(** ** The settings section *)





Lemma is_line_of_whole l : is_line_of l l.
Proof. exists "", "". split; [by rewrite sapp_nil_r|]. split; by left. Qed.


Example shutter_speed_examples :
  format_settings ∅ {[ "ExposureTime" := VFloat (1 / 30) ]}
    = Ok "Shutter Speed: 1/30 sec"
  /\ format_settings ∅ {[ "ExposureTime" := VFloat six_tenths ]}
    = Ok "Shutter Speed: 1/1 sec"
  /\ py_round (1 / six_tenths) = Ok 2
  /\ format_settings ∅ {[ "ExposureTime" := VFloat 2.5 ]}
    = Ok "Shutter Speed: 2.5 sec"
  /\ format_settings ∅ {[ "ExposureTime" := VInt (-2) ]}
    = Ok "Shutter Speed: 1/0 sec".
Proof. by vm_compute. Qed.

(** A float equal to zero is below one. *)
Lemma float_zero_lt_one x :
  PrimFloat.eqb x 0 = true -> PrimFloat.ltb x 1 = true.
Proof.
  rewrite FloatAxioms.eqb_spec, FloatAxioms.ltb_spec.
  destruct (Prim2SF x) as [s|s| |s m e]; try done; by destruct s.
Qed.

(** The line of an exposure time equal to zero cannot be built. *)
Lemma shutter_line_zero v :
  eq_zero v = true -> shutter_line v = Raise ZeroDivisionError.
Proof.
  unfold shutter_line. destruct v as [s|n|x]; cbn [eq_zero lt_one reciprocal].
  - done.
  - intros Hn. apply Z.eqb_eq in Hn as ->. reflexivity.
  - intros Hx. rewrite (float_zero_lt_one x Hx). cbn [mbind result_bind].
    by rewrite Hx.
Qed.

Lemma truthy_lookup {V : Type} (m : gmap string V) key v :
  m !! key = Some v -> truthy (Some m) = true /\ or_empty (Some m) = m.
Proof.
  intros Hk. assert (truthy (Some m) = true) as Ht.
  { unfold truthy. rewrite bool_decide_eq_false_2; [done|].
    intros ->. by rewrite lookup_empty in Hk. }
  split; [done|]. unfold or_empty. by rewrite Ht.
Qed.

(** X3.  An exposure time equal to zero (the integer [0], or the float
    [0.0] or [-0.0]) makes the settings section fail with
    [ZeroDivisionError], and with it the whole report, whatever else the
    two records hold. *)
Theorem zero_exposure_time_raises
    (EXPOSURE_PROGRAMS : gmap Z string) (POST_PROCESSING_KEYS : list string)
    (xmp_data : option XmpRecord) (exif_data : ExifRecord) (v : value) :
  exif_data !! "ExposureTime" = Some v -> eq_zero v = true ->
  format_settings (or_empty xmp_data) exif_data = Raise ZeroDivisionError
  /\ format_image_metadata EXPOSURE_PROGRAMS POST_PROCESSING_KEYS
       xmp_data (Some exif_data) = Raise ZeroDivisionError.
Proof.
  intros Hv Hz.
  assert (forall x, format_settings x exif_data = Raise ZeroDivisionError) as Hs.
  { intros x. unfold format_settings, when_present.
    rewrite Hv, (shutter_line_zero v Hz).
    by destruct (exif_data !! "FNumber"). }
  split; [apply Hs|].
  destruct (truthy_lookup exif_data _ _ Hv) as [Ht He].
  unfold format_image_metadata. rewrite Ht, He, andb_false_r.
  unfold sections. rewrite !render_sections_cons.
  cbn [mbind result_bind]. by rewrite Hs.
Qed.

Lemma zero_exposure_time_raises_witness :
  format_settings ∅ {[ "ExposureTime" := VFloat (-0) ]} = Raise ZeroDivisionError
  /\ format_image_metadata sample_programs sample_keys
       (Some sample_xmp_data) (Some {[ "ExposureTime" := VFloat (-0) ]})
     = Raise ZeroDivisionError.
Proof.
  refine (conj
    (eq_trans _ (proj1 (zero_exposure_time_raises sample_programs sample_keys
                          None {[ "ExposureTime" := VFloat (-0) ]}
                          (VFloat (-0)) _ _)))
    (proj2 (zero_exposure_time_raises sample_programs sample_keys
              (Some sample_xmp_data) {[ "ExposureTime" := VFloat (-0) ]}
              (VFloat (-0)) _ _))); by vm_compute.
Defined.

(** The text of a line of the settings section that is present. *)
Lemma strip_head_nonempty s c r :
  s = String c r -> is_space c = false -> str_strip s <> "".
Proof.
  intros -> Hc E. destruct (strip_keeps_head c r Hc) as [r' Hr].
  by rewrite Hr in E.
Qed.

Lemma shutter_line_head v s :
  shutter_line v = Ok s -> exists r, s = String "S" r.
Proof.
  unfold shutter_line. destruct (lt_one v) as [[]|]; cbn [mbind result_bind].
  - destruct (reciprocal v) as [r|]; cbn [mbind result_bind]; [|done].
    destruct (int_of_float r); cbn [mbind result_bind]; [|done].
    intros [= <-]. eauto.
  - intros [= <-]. eauto.
  - done.
Qed.

(** X4.  The settings section is empty exactly when the record has none
    of [FNumber], [ExposureTime], [ISOSpeedRatings] and [FocalLength]:
    with one of them it holds a line, or fails. *)
Theorem format_settings_empty (xmp_data : XmpRecord) (exif_data : ExifRecord) :
  format_settings xmp_data exif_data = Ok ""
  <-> exif_data !! "FNumber" = None /\ exif_data !! "ExposureTime" = None
      /\ exif_data !! "ISOSpeedRatings" = None
      /\ exif_data !! "FocalLength" = None.
Proof.
  unfold format_settings, when_present. split.
  - destruct (exif_data !! "FNumber") as [a|];
      destruct (exif_data !! "ExposureTime") as [s|];
      [destruct (shutter_line s) as [l|] eqn:Hl; [|done];
       apply shutter_line_head in Hl as [r ->]| |
       destruct (shutter_line s) as [l|] eqn:Hl; [|done];
       apply shutter_line_head in Hl as [r ->]|];
      destruct (exif_data !! "ISOSpeedRatings") as [i|];
      destruct (exif_data !! "FocalLength") as [f|];
      cbn [mbind result_bind]; try done;
      intros [= E]; exfalso; revert E;
      (eapply strip_head_nonempty; [reflexivity|reflexivity]).
  - by intros (-> & -> & -> & ->).
Qed.

(** X5.  Of the four tags of the settings section only [ExposureTime]
    can make it fail: the section fails exactly when the record has the
    tag and its line cannot be built, with the exception of the line.  An
    exposure time that is a string fails with [TypeError] (at the
    comparison with [1]); one that is not below one never fails. *)
Theorem format_settings_raises
    (xmp_data : XmpRecord) (exif_data : ExifRecord) (err : exn) :
  (format_settings xmp_data exif_data = Raise err
   <-> exists v, exif_data !! "ExposureTime" = Some v
                 /\ shutter_line v = Raise err)
  /\ (forall s, shutter_line (VStr s) = Raise TypeError)
  /\ (forall v, lt_one v = Ok false -> shutter_line v <> Raise err).
Proof.
  split; [|split].
  - unfold format_settings, when_present.
    destruct (exif_data !! "ExposureTime") as [v|].
    + destruct (shutter_line v) as [l|e] eqn:Hl.
      * split; [|intros (? & [= <-] & ?); congruence].
        destruct (exif_data !! "FNumber"), (exif_data !! "ISOSpeedRatings"),
          (exif_data !! "FocalLength"); done.
      * split.
        -- destruct (exif_data !! "FNumber"); cbn [mbind result_bind];
             intros [= <-]; eauto.
        -- intros (? & [= <-] & H). rewrite Hl in H. injection H as <-.
           by destruct (exif_data !! "FNumber").
    + split; [|by intros (? & ? & _)].
      destruct (exif_data !! "FNumber"), (exif_data !! "ISOSpeedRatings"),
        (exif_data !! "FocalLength"); done.
  - done.
  - intros v Hv. unfold shutter_line. by rewrite Hv.
Qed.

(** ** Loops that add lines *)



Lemma concat_lines_ext line line' keys :
  (forall key, key ∈ keys -> line key = line' key) ->
  concat_lines line keys = concat_lines line' keys.
Proof.
  induction keys as [|key keys IH]; [done|]. intros H. cbn [concat_lines].
  rewrite (H key) by (by left). rewrite IH; [done|].
  intros k Hk. apply H. by right.
Qed.

(** ** Failures of the crop section *)



Example crop_value_error :
  format_crop_info {[ "CropTop" := "12%" ]} ∅ = Raise ValueError
  /\ format_crop_info {[ "CropTop" := "" ]} ∅ = Raise ValueError
  /\ format_crop_info {[ "CropAngle" := "n/a" ]} ∅ = Ok "".
Proof. by vm_compute. Qed.

(** ** Failures of the post-processing section *)




Example perspective_scale_not_finite :
  format_post_processing ["PerspectiveScale"] {[ "PerspectiveScale" := "inf" ]} ∅
    = Raise OverflowError
  /\ format_post_processing ["PerspectiveScale"]
       {[ "PerspectiveScale" := "-1e999" ]} ∅
    = Raise OverflowError
  /\ format_post_processing ["PerspectiveScale"] {[ "PerspectiveScale" := "nan" ]} ∅
    = Ok "Perspective Scale: nan"
  /\ format_post_processing ["Contrast"] {[ "Contrast" := "inf" ]} ∅
    = Ok "Contrast: inf".
Proof. by vm_compute. Qed.

(** ** The fields of the capture date *)








Example capture_date_failures :
  format_capture_date ∅ {[ "DateTimeOriginal" := VStr "2024:07:30" ]}
    = Raise ValueError
  /\ format_capture_date ∅ {[ "DateTimeOriginal" := VStr "" ]} = Raise ValueError
  /\ format_capture_date ∅ {[ "DateTimeOriginal" := VStr "2024:07:30 22:12:59 UTC" ]}
    = Raise ValueError
  /\ format_capture_date ∅ {[ "DateTimeOriginal" := VInt 20240730 ]}
    = Raise AttributeError.
Proof. by vm_compute. Qed.

(** ** Names without inner capitals *)









(** ** The EXIF extractor *)

(** Successive assignments build the map of the list read backwards. *)
Lemma assign_all_list_to_map {V : Type} (kvs : list (string * V)) :
  assign_all kvs = list_to_map (reverse kvs).
Proof.
  unfold assign_all. induction kvs as [|[k v] kvs IH] using rev_ind; [done|].
  rewrite foldl_snoc, reverse_snoc, IH. done.
Qed.

Lemma assign_all_lookup_elem {V : Type} (kvs : list (string * V)) k v :
  assign_all kvs !! k = Some v -> (k, v) ∈ kvs.
Proof.
  rewrite assign_all_list_to_map. intros H%elem_of_list_to_map_2.
  by rewrite elem_of_reverse in H.
Qed.

Lemma assign_all_elem_lookup {V : Type} (kvs : list (string * V)) k v :
  NoDup kvs.*1 -> (k, v) ∈ kvs -> assign_all kvs !! k = Some v.
Proof.
  intros Hnd Hk. rewrite assign_all_list_to_map.
  apply elem_of_list_to_map_1; [|by rewrite elem_of_reverse].
  by rewrite fmap_reverse, reverse_Permutation.
Qed.

Section ExifTags.

Variable TAGS : gmap Z string.

Local Abbreviation named :=
  (fun '(k, v) => name ← TAGS !! k; Some (name, v : value)).

Lemma named_elem (exif : list (Z * value)) (name : string) (v : value) :
  (name, v) ∈ omap named exif
  <-> exists k, (k, v) ∈ exif /\ TAGS !! k = Some name.
Proof.
  rewrite list_elem_of_omap. split.
  - intros ([k v'] & Hk & Hn). cbn in Hn.
    destruct (TAGS !! k) as [n|] eqn:Ht; [|done]. cbn in Hn.
    injection Hn as <- <-. eauto.
  - intros (k & Hk & Ht). exists (k, v). split; [done|]. cbn. by rewrite Ht.
Qed.

Lemma named_NoDup (exif : list (Z * value)) :
  NoDup exif.*1 ->
  (forall k k' name, TAGS !! k = Some name -> TAGS !! k' = Some name -> k = k') ->
  NoDup (omap named exif).*1.
Proof.
  intros Hnd Hinj. induction exif as [|[k v] exif IH]; [constructor|].
  cbn [fmap list_fmap] in Hnd. apply NoDup_cons in Hnd as [Hk Hnd].
  cbn [omap list_omap]. destruct (TAGS !! k) as [name|] eqn:Ht; cbn; [|by apply IH].
  apply NoDup_cons. split; [|by apply IH].
  intros ([name' v'] & -> & Hin)%list_elem_of_fmap. cbn in Hin.
  apply named_elem in Hin as (k' & Hin & Ht').
  rewrite (Hinj k k' name' Ht Ht') in Hk. apply Hk.
  apply list_elem_of_fmap. by exists (k', v').
Qed.

Lemma named_unknown (exif : list (Z * value)) :
  (forall k v, (k, v) ∈ exif -> TAGS !! k = None) -> omap named exif = [].
Proof.
  induction exif as [|[k v] exif IH]; [done|]. intros H. cbn [omap list_omap].
  rewrite (H k v) by (by left). cbn. apply IH.
  intros k' v' Hin. apply (H k' v'). by right.
Qed.

(** X11.  [get_exif] on an image whose tag table is not empty prints
    nothing and returns a record: an entry of the record is an entry of
    the table under the name [TAGS] gives its number, so a tag whose
    number [TAGS] does not know is dropped; and when the numbers of the
    table are distinct and [TAGS] gives distinct numbers distinct names,
    every entry with a known number is in the record. *)
Theorem get_exif_known_tags
    (image_path : string) (img : image) (exif : list (Z * value)) :
  getexif img = Ok (Some exif) -> exif <> [] ->
  exists exif_data,
    get_exif TAGS image_path (Ok img) = ([], Some exif_data)
    /\ (forall name v,
          exif_data !! name = Some v ->
          exists k, (k, v) ∈ exif /\ TAGS !! k = Some name)
    /\ (NoDup exif.*1 ->
        (forall k k' name,
           TAGS !! k = Some name -> TAGS !! k' = Some name -> k = k') ->
        forall k v name,
          (k, v) ∈ exif -> TAGS !! k = Some name ->
          exif_data !! name = Some v).
Proof.
  intros Hg Hne. exists (named_tags TAGS exif). split; [|split].
  - unfold get_exif. cbn [mbind result_bind]. rewrite Hg. by destruct exif.
  - intros name v H%assign_all_lookup_elem. by apply named_elem.
  - intros Hnd Hinj k v name Hk Ht. apply assign_all_elem_lookup.
    + by apply named_NoDup.
    + apply named_elem. eauto.
Qed.

End ExifTags.

Lemma sample_tags_inj k k' name :
  sample_tags !! k = Some name -> sample_tags !! k' = Some name -> k = k'.
Proof.
  unfold sample_tags. rewrite !lookup_insert_Some, !lookup_singleton_Some.
  intros [[? ?]|[? [? ?]]] [[? ?]|[? [? ?]]]; congruence.
Qed.

Lemma sample_tag_table_NoDup : NoDup sample_tag_table.*1.
Proof.
  apply (bool_decide_unpack _). by vm_compute.
Qed.

Lemma get_exif_known_tags_witness :
  exists exif_data,
    get_exif sample_tags "a.jpg" (Ok (Image (Ok (Some sample_tag_table)) []))
    = ([], Some exif_data)
    /\ exif_data !! "Model" = Some (VStr "EOS 200D").
Proof.
  destruct (get_exif_known_tags sample_tags "a.jpg"
              (Image (Ok (Some sample_tag_table)) []) sample_tag_table
              eq_refl ltac:(done))
    as (exif_data & Hr & _ & Hcomplete).
  exists exif_data. split; [exact Hr|].
  apply (Hcomplete sample_tag_table_NoDup sample_tags_inj 272 _ "Model").
  - unfold sample_tag_table. do 2 right. left.
  - by vm_compute.
Defined.

Example get_exif_sample :
  get_exif sample_tags "a.jpg" (Ok (Image (Ok (Some sample_tag_table)) []))
  = ([], Some {[ "Make" := VStr "Canon"; "Model" := VStr "EOS 200D" ]}).
Proof. by vm_compute. Qed.

(** X12.  When [TAGS] knows none of the numbers of the tag table,
    [get_exif] returns the empty record, not [None]; the report treats
    the two alike: with no XMP record it is ["No metadata present"]. *)
Theorem get_exif_unknown_tags (TAGS : gmap Z string)
    (EXPOSURE_PROGRAMS : gmap Z string) (POST_PROCESSING_KEYS : list string)
    (image_path : string) (img : image) (exif : list (Z * value)) :
  getexif img = Ok (Some exif) -> exif <> [] ->
  (forall k v, (k, v) ∈ exif -> TAGS !! k = None) ->
  get_exif TAGS image_path (Ok img) = ([], Some ∅)
  /\ format_image_metadata EXPOSURE_PROGRAMS POST_PROCESSING_KEYS
       None (get_exif TAGS image_path (Ok img)).2
     = Ok sentinel.
Proof.
  intros Hg Hne Hunknown.
  assert (get_exif TAGS image_path (Ok img) = ([], Some ∅)) as ->.
  { unfold get_exif. cbn [mbind result_bind]. rewrite Hg.
    unfold named_tags. rewrite (named_unknown TAGS exif Hunknown).
    by destruct exif. }
  done.
Qed.

Lemma get_exif_unknown_tags_witness :
  get_exif sample_tags "a.jpg" (Ok (Image (Ok (Some [(37500, VInt 7)])) []))
  = ([], Some ∅)
  /\ format_image_metadata sample_programs sample_keys None
       (get_exif sample_tags "a.jpg"
          (Ok (Image (Ok (Some [(37500, VInt 7)])) []))).2
     = Ok sentinel.
Proof.
  apply (get_exif_unknown_tags sample_tags sample_programs sample_keys "a.jpg"
           (Image (Ok (Some [(37500, VInt 7)])) []) [(37500, VInt 7)]);
    [done|done|].
  intros k v Hin. apply list_elem_of_singleton in Hin. injection Hin as -> ->.
  by vm_compute.
Defined.

(** ** The XMP extractor *)

Lemma prefix_app p s : String.prefix p s = true -> exists r, s = p +:+ r.
Proof.
  revert s. induction p as [|a p IH]; intros s; [by exists s|].
  destruct s as [|b s]; [done|]. cbn [String.prefix].
  destruct (ascii_dec a b) as [<-|]; [|done].
  intros [r ->]%IH. by exists r.
Qed.



Lemma find_xmp_segment_first segs1 xmp_data segs2 :
  Forall other_segment segs1 -> startswith xmp_marker xmp_data = true ->
  find_xmp_segment (segs1 ++ ("APP1", xmp_data) :: segs2) = Some xmp_data.
Proof.
  intros Hs Hx. unfold find_xmp_segment.
  induction Hs as [|[segment content] segs H _ IH].
  - cbn [app List.find]. by rewrite bool_decide_eq_true_2, Hx.
  - cbn [app List.find]. destruct H as [H|H]; cbn [fst snd] in H.
    + by rewrite bool_decide_eq_false_2.
    + by rewrite H, andb_false_r.
Qed.

(** ** Finding and slicing *)

Lemma find_go_range sub s i :
  find_go sub s i = -1 \/ i <= find_go sub s i.
Proof.
  revert i. induction s as [|c s IH]; intros i; cbn [find_go].
  - destruct (startswith sub ""); [right; lia|by left].
  - destruct (startswith sub (String c s)); [right; lia|].
    destruct (IH (i + 1)) as [->|H]; [by left|right; lia].
Qed.

(** A text that does not hold the first character of [sub] is passed
    over. *)
Lemma find_go_skip a sub p r i :
  str_forall (fun c => negb (Ascii.eqb c a)) p = true ->
  find_go (String a sub) (p +:+ r) i
  = find_go (String a sub) r (i + Z.of_nat (String.length p)).
Proof.
  revert i. induction p as [|c p IH]; intros i Hp.
  - change ("" +:+ r) with r. cbn [String.length]. f_equal. lia.
  - cbn [str_forall] in Hp. apply andb_true_iff in Hp as [Hc Hp].
    apply negb_true_iff, Ascii.eqb_neq in Hc.
    rewrite sapp_cons. cbn [find_go]. unfold startswith at 1.
    cbn [String.prefix]. destruct (ascii_dec a c) as [->|_]; [done|].
    rewrite IH by done. f_equal. cbn [String.length]. lia.
Qed.

Lemma slice_empty s i j :
  slice_bound (Z.of_nat (String.length s)) j
    <= slice_bound (Z.of_nat (String.length s)) i ->
  str_slice s i j = "".
Proof.
  intros H. unfold str_slice. cbn zeta.
  replace (Z.to_nat _) with 0%nat by lia. reflexivity.
Qed.


Section XmpPacket.

Variable fromstring : string -> result element.



(** X15.  A segment that starts with the marker and holds no
    ["</x:xmpmeta"] gives the parser the empty text: the end of the
    slice is then the eleventh byte, which lies before its start. *)
Theorem get_xmp_metadata_unclosed
    (img : image) (segs1 segs2 : list (string * string)) (xmp_data : string) :
  applist img = segs1 ++ ("APP1", xmp_data) :: segs2 ->
  Forall other_segment segs1 ->
  startswith xmp_marker xmp_data = true ->
  str_find "</x:xmpmeta" xmp_data = -1 ->
  get_xmp_metadata fromstring (Ok img)
  = (root ← fromstring ""; Ok (Some (flatten root))).
Proof.
  intros Happ Hs Hm Hend. unfold get_xmp_metadata.
  cbn [mbind result_bind]. rewrite Happ, find_xmp_segment_first by done.
  destruct (prefix_app _ _ Hm) as [r Hr].
  destruct xmp_data as [|c t] eqn:E; [done|]. rewrite <- E in *.
  rewrite Hend, slice_empty; [done|].
  assert (28 <= Z.of_nat (String.length xmp_data)) as Hlen.
  { rewrite Hr, sapp_length. change (String.length xmp_marker) with 28%nat. lia. }
  assert (str_find "<x:xmpmeta" xmp_data = -1
          \/ 28 <= str_find "<x:xmpmeta" xmp_data) as Hstart.
  { unfold str_find. rewrite Hr, find_go_skip by done.
    change (0 + Z.of_nat (String.length xmp_marker)) with 28.
    apply find_go_range. }
  unfold slice_bound. change (-1 + 12 <? 0) with false. cbn iota.
  destruct Hstart as [->|Hstart].
  - change (-1 <? 0) with true. cbn iota. lia.
  - rewrite (proj2 (Z.ltb_ge _ 0)) by lia. lia.
Qed.

End XmpPacket.




Lemma get_xmp_metadata_unclosed_witness :
  get_xmp_metadata sample_parser
    (Ok (Image (Ok None)
           [("APP1", xmp_marker +:+ "<x:xmpmeta><rdf:RDF/>")]))
  = Raise ParseError.
Proof.
  refine (eq_trans
    (get_xmp_metadata_unclosed sample_parser
       (Image (Ok None) [("APP1", xmp_marker +:+ "<x:xmpmeta><rdf:RDF/>")])
       [] [] (xmp_marker +:+ "<x:xmpmeta><rdf:RDF/>")
       eq_refl (List.Forall_nil _) _ _) _);
    by vm_compute.
Defined.

(** ** The keys of the flat record *)

Lemma split_on_go_free sep cur s p :
  str_forall (fun c => negb (Ascii.eqb c sep)) cur = true ->
  p ∈ split_on_go sep cur s ->
  str_forall (fun c => negb (Ascii.eqb c sep)) p = true.
Proof.
  revert cur. induction s as [|c s IH]; intros cur Hcur; cbn [split_on_go].
  - intros ->%list_elem_of_singleton. by rewrite str_forall_rev.
  - destruct (Ascii.eqb c sep) eqn:Hc.
    + intros [->|Hp]%elem_of_cons; [by rewrite str_forall_rev|].
      by apply (IH "").
    + apply IH. cbn [str_forall]. by rewrite Hc, Hcur.
Qed.

Lemma local_name_free name :
  str_forall (fun c => negb (Ascii.eqb c "}")) (local_name name) = true.
Proof.
  unfold local_name. destruct (split_on "}" name !! 1%nat) as [p|] eqn:Hp;
    [|done].
  apply list_elem_of_lookup_2 in Hp. cbn [default from_option id].
  by apply (split_on_go_free "}" "" name).
Qed.

Lemma contains_char a s :
  str_contains (String a "") s
  = negb (str_forall (fun c => negb (Ascii.eqb c a)) s).
Proof.
  induction s as [|c s IH]; [done|]. cbn [str_contains str_forall].
  unfold startswith at 1. cbn [String.prefix].
  destruct (ascii_dec a c) as [->|Hne].
  - rewrite Ascii.eqb_refl. by destruct s.
  - apply not_eq_sym, Ascii.eqb_neq in Hne. rewrite Hne, IH.
    cbn [negb andb orb]. done.
Qed.

Lemma strip_namespace_free name :
  str_contains "}" (strip_namespace name) = false.
Proof.
  unfold strip_namespace. destruct (str_contains "}" name) eqn:Hc; [|done].
  by rewrite contains_char, local_name_free.
Qed.

Lemma element_entries_free e k v :
  (k, v) ∈ element_entries e -> str_contains "}" k = false.
Proof.
  unfold element_entries. intros [Hin|Hin]%elem_of_app.
  - destruct (str_contains "}" (tag_of e)); [|by apply elem_of_nil in Hin].
    destruct (text_of e) as [text|]; [|by apply elem_of_nil in Hin].
    destruct (str_strip text); [by apply elem_of_nil in Hin|].
    apply list_elem_of_singleton in Hin. injection Hin as -> _.
    by rewrite contains_char, local_name_free.
  - apply list_elem_of_fmap in Hin as ([name v'] & [= -> ->] & _).
    apply strip_namespace_free.
Qed.

(** X16.  No key of the record [get_xmp_metadata] returns holds a
    ["}"]: the namespace a tag or an attribute name carries in braces is
    cut off, whatever tree the parser returns. *)
Theorem get_xmp_metadata_keys
    (fromstring : string -> result element) (opened : result image)
    (metadata : XmpRecord) (key : string) :
  get_xmp_metadata fromstring opened = Ok (Some metadata) ->
  is_Some (metadata !! key) -> str_contains "}" key = false.
Proof.
  unfold get_xmp_metadata. destruct opened as [img|]; [|done].
  cbn [mbind result_bind].
  destruct (find_xmp_segment (applist img)) as [[|c xmp_data]|]; [done| |done].
  destruct (decode_utf8 _) as [xmp_str|]; [|done]. cbn [mbind result_bind].
  destruct (fromstring xmp_str) as [root|]; [|done]. cbn [mbind result_bind].
  intros [= <-] [v Hv]. unfold flatten in Hv.
  apply assign_all_lookup_elem, list_elem_of_In, in_flat_map in Hv
    as (e & _ & Hin).
  apply list_elem_of_In in Hin. by eapply element_entries_free.
Qed.

Lemma get_xmp_metadata_keys_witness :
  str_contains "}" "CreatorTool" = false.
Proof.
  refine (get_xmp_metadata_keys sample_parser (Ok sample_image)
            {[ "CreatorTool" := "Adobe Lightroom"; "about" := "" ]}
            "CreatorTool" _ _); [by vm_compute|].
  exists "Adobe Lightroom". by vm_compute.
Defined.

(** ** The two commands *)

Lemma basename_go_free cur name :
  str_forall (fun c => negb (Ascii.eqb c "/")) name = true ->
  basename_go cur name = String.rev cur +:+ name.
Proof.
  revert cur. induction name as [|c name IH]; intros cur;
    [by rewrite sapp_nil_r|].
  cbn [str_forall basename_go]. intros [Hc Hn]%andb_true_iff.
  apply negb_true_iff in Hc. rewrite Hc, IH by done.
  by rewrite rev_cons, sapp_assoc.
Qed.

Lemma basename_go_dir cur dir name :
  basename_go cur (dir +:+ "/" +:+ name) = basename_go "" name.
Proof.
  revert cur. induction dir as [|c dir IH]; intros cur.
  - change ("" +:+ ?x) with x. by change ("/" +:+ name) with (String "/" name).
  - rewrite sapp_cons. cbn [basename_go]. by destruct (Ascii.eqb c "/").
Qed.

Section CommandsCompose.

Variable TAGS : gmap Z string.
Variable fromstring : string -> result element.
Variable EXPOSURE_PROGRAMS : gmap Z string.
Variable POST_PROCESSING_KEYS : list string.
Variable Image_open : string -> result image.
Variable output_file : string -> string.
Variable writable : string -> bool.

Local Abbreviation print :=
  (print_metadata TAGS fromstring EXPOSURE_PROGRAMS POST_PROCESSING_KEYS
     Image_open).
Local Abbreviation save :=
  (save_metadata TAGS fromstring EXPOSURE_PROGRAMS POST_PROCESSING_KEYS
     Image_open output_file writable).

(** X17.  For an image that cannot be opened, both commands print the
    diagnostic of [get_exif], which swallows the error, and then fail
    with that same error, which [get_xmp_metadata] lets through; no
    report is printed and no file is written. *)
Theorem commands_unreadable_image
    (files : gmap string string) (image_path : string) (e : exn) :
  Image_open image_path = Raise e ->
  print image_path = ([Diagnostic (ErrorReadingExif image_path e)], Raise e)
  /\ save files image_path
     = ([Diagnostic (ErrorReadingExif image_path e)], files, Raise e).
Proof.
  intros H. unfold print_metadata, save_metadata, formatted_metadata.
  by rewrite H.
Qed.



(** X20.  The file [save_metadata] writes depends on the last component
    of the image path only: images of the same name in different
    directories are saved to the same file. *)
Theorem save_metadata_output_path
    (files files' : gmap string string) (dir name : string)
    (out : list stdout_line) (output_path : string) :
  str_forall (fun c => negb (Ascii.eqb c "/")) name = true ->
  save files (dir +:+ "/" +:+ name) = (out, files', Ok output_path) ->
  output_path = output_file name +:+ ".txt".
Proof.
  intros Hn. unfold save_metadata.
  destruct (formatted_metadata _ _ _ _ _ _) as [out0 [text|e]]; [|done].
  destruct (writable _); intros [= <- <- <-].
  unfold basename. by rewrite basename_go_dir, basename_go_free.
Qed.

End CommandsCompose.


Lemma commands_unreadable_image_witness :
  print_metadata sample_tags sample_parser sample_programs sample_keys
    sample_open "photos/none.jpg"
  = ([Diagnostic (ErrorReadingExif "photos/none.jpg" OSError)], Raise OSError)
  /\ save_metadata sample_tags sample_parser sample_programs sample_keys
       sample_open sample_output_file (fun _ => true) ∅ "photos/none.jpg"
     = ([Diagnostic (ErrorReadingExif "photos/none.jpg" OSError)], ∅,
        Raise OSError).
Proof.
  apply (commands_unreadable_image sample_tags sample_parser sample_programs
           sample_keys sample_open sample_output_file (fun _ => true)
           ∅ "photos/none.jpg" OSError).
  by vm_compute.
Defined.



Lemma save_metadata_output_path_witness :
  "output/test.jpg.txt" = sample_output_file "test.jpg" +:+ ".txt".
Proof.
  refine (save_metadata_output_path sample_tags sample_parser sample_programs
            sample_keys sample_open sample_output_file (fun _ => true)
            ∅ ({[ "output/test.jpg.txt" :=
                   join nl [ "📸 Camera Settings Breakdown 📸"; "Camera: ";
                             "Lens:"; "✨ Post-Processing";
                             "Edited in Adobe Lightroom" ] ]})
            "photos" "test.jpg" [] "output/test.jpg.txt" _ _);
    by vm_compute.
Defined.

(** ** The report as a whole *)

Lemma truthy_or_empty {V : Type} (d : option (gmap string V)) :
  truthy (Some (or_empty d)) = truthy d
  /\ or_empty (Some (or_empty d)) = or_empty d.
Proof.
  assert (truthy (Some (or_empty d)) = truthy d) as Ht.
  { unfold or_empty. destruct (truthy d) eqn:E.
    - destruct d as [m|]; [exact E|done].
    - unfold truthy. by rewrite bool_decide_eq_true_2. }
  split; [done|]. unfold or_empty at 1. rewrite Ht.
  unfold or_empty. by destruct (truthy d).
Qed.

Section ReportInvariants.

Variable EXPOSURE_PROGRAMS : gmap Z string.
Variable POST_PROCESSING_KEYS : list string.

Local Abbreviation report :=
  (format_image_metadata EXPOSURE_PROGRAMS POST_PROCESSING_KEYS).


(** X22.  An absent record and the empty record are the same to
    [format_image_metadata]. *)
Theorem report_none_is_empty
    (xmp_data : option XmpRecord) (exif_data : option ExifRecord) :
  report xmp_data exif_data
  = report (Some (or_empty xmp_data)) (Some (or_empty exif_data)).
Proof.
  unfold format_image_metadata.
  destruct (truthy_or_empty xmp_data) as [-> ->].
  by destruct (truthy_or_empty exif_data) as [-> ->].
Qed.

(** X23.  The XMP keys the report reads are [CreatorTool], the four
    crop keys and the allow-listed keys: any other key, added to an XMP
    record that is not empty, leaves the report as it is. *)
Theorem report_ignores_other_keys
    (xmp_data : XmpRecord) (exif_data : option ExifRecord) (key value : string) :
  key ∉ "CreatorTool" :: crop_keys ++ POST_PROCESSING_KEYS ->
  xmp_data <> ∅ ->
  report (Some (<[key := value]> xmp_data)) exif_data
  = report (Some xmp_data) exif_data.
Proof.
  intros Hk Hne.
  apply not_elem_of_cons in Hk as [Htool Hk].
  apply not_elem_of_app in Hk as [Hcrop Hkeys].
  assert (forall k, k ≠ key -> <[key := value]> xmp_data !! k = xmp_data !! k)
    as Hread by (intros k ?; by apply lookup_insert_ne).
  unfold format_image_metadata.
  assert (truthy (Some (<[key := value]> xmp_data)) = true) as Ht.
  { unfold truthy. rewrite bool_decide_eq_false_2; [done|].
    apply insert_non_empty. }
  assert (truthy (Some xmp_data) = true) as Ht'.
  { unfold truthy. by rewrite bool_decide_eq_false_2. }
  unfold or_empty at 1 3. rewrite Ht, Ht'. cbn [negb andb default from_option id].
  set (e := or_empty exif_data). f_equal.
  unfold sections. rewrite !render_sections_cons.
  assert (format_crop_info (<[key := value]> xmp_data) e
          = format_crop_info xmp_data e) as ->.
  { unfold format_crop_info. f_equal. apply concat_lines_ext.
    intros k Hin. unfold crop_line, when_present. rewrite Hread; [done|].
    by intros ->. }
  assert (format_post_processing POST_PROCESSING_KEYS
            (<[key := value]> xmp_data) e
          = format_post_processing POST_PROCESSING_KEYS xmp_data e) as ->.
  { unfold format_post_processing. rewrite Hread by done. f_equal.
    apply concat_lines_ext. intros k Hin. unfold when_present.
    rewrite Hread; [done|]. by intros ->. }
  done.
Qed.

End ReportInvariants.


Lemma report_ignores_other_keys_witness :
  format_image_metadata sample_programs sample_keys
    (Some (<[ "Rating" := "5" ]> {[ "CreatorTool" := "Darktable" ]})) None
  = format_image_metadata sample_programs sample_keys
      (Some {[ "CreatorTool" := "Darktable" ]}) None.
Proof.
  refine (report_ignores_other_keys sample_programs sample_keys
            {[ "CreatorTool" := "Darktable" ]} None "Rating" "5" _ _);
    apply (bool_decide_unpack _); by vm_compute.
Defined.

(** With an XMP record that is empty it is otherwise: the key makes the
    record count, and the sentinel gives way to the camera section. *)
Example other_key_in_empty_record :
  format_image_metadata sample_programs sample_keys (Some ∅) None
    = Ok "No metadata present"
  /\ format_image_metadata sample_programs sample_keys
       (Some {[ "Rating" := "5" ]}) None
    = Ok (join nl ["📸 Camera Settings Breakdown 📸"; "Camera: "; "Lens:"]).
Proof. by vm_compute. Qed.

(** The reciprocal of the least positive float is infinite, and its
    integer part is not defined: such an exposure time is not zero, and
    makes the settings section fail all the same. *)
Example tiny_exposure_time_overflows :
  eq_zero (VFloat least_float) = false
  /\ format_settings ∅ {[ "ExposureTime" := VFloat least_float ]}
     = Raise OverflowError.
Proof. by vm_compute. Qed.
